(** * getgist: a shallow embedding of [getgist/__main__.py]

    The program downloads one named file from a GitHub user's gists into
    the current directory.  Its methods print, prompt, read the network and
    touch the file system; here they are functions in a state-and-exception
    monad over an explicit [world].  What the program takes from Python's
    library and from its environment (environment variables, the command
    line, [urlopen], [json.loads], [int]) is collected in the [Runtime]
    class and left uninterpreted: the theorems hold for every runtime. *)

From Stdlib Require Import ZArith Lia Ascii.
From stdpp Require Import base option list gmap strings pretty.

Open Scope string_scope.
Open Scope list_scope.
Open Scope nat_scope.

(** ** Python exceptions that can cross the program *)

Inductive exn : Type :=
  | HTTPError (code : Z)      (* urllib: the server answered with an error status *)
  | URLError                  (* urllib: no answer (unknown host, refused, no route) *)
  | SocketTimeout             (* socket.timeout *)
  | HTTPException             (* http.client: malformed response *)
  | UnicodeDecodeError
  | ValueError
  | AttributeError
  | TypeError
  | KeyError
  | EOFError
  | RecursionError
  | IndexError
  | FileNotFoundError
  | SystemExit (status : Z)
  | OutOfFuel.                (* not a Python exception: a loop of the model ran
                                 out of its budget; [backup_loop_total] shows
                                 that it never does *)

(** [except HTTPError:] catches instances of [HTTPError] only; [URLError]
    is its parent class and is not caught by it. *)
Definition is_HTTPError (e : exn) : bool :=
  match e with HTTPError _ => true | _ => false end.

(** A bare [except:] catches everything. *)
Definition any_exception (e : exn) : bool := true.

Inductive outcome (A : Type) : Type :=
  | Return (a : A)
  | Raise (e : exn).
Arguments Return {A} a.
Arguments Raise {A} e.

(** ** The world the program acts on *)

Inductive event : Type :=
  | Print (line : string)     (* print(line) *)
  | Prompt (text : string).   (* the prompt written by input(text) *)

Record world : Type := World {
  console : list event;               (* what was written, oldest first *)
  stdin : list string;                (* the lines still to be read *)
  fs : gmap string string;            (* path of each existing file, and its text *)
  curl_headers : gmap string string   (* the dict behind curl's default [headers=dict()] *)
}.

Definition with_console (c : list event) (w : world) : world :=
  World c (stdin w) (fs w) (curl_headers w).
Definition with_stdin (i : list string) (w : world) : world :=
  World (console w) i (fs w) (curl_headers w).
Definition with_fs (m : gmap string string) (w : world) : world :=
  World (console w) (stdin w) m (curl_headers w).
Definition with_curl_headers (h : gmap string string) (w : world) : world :=
  World (console w) (stdin w) (fs w) h.

(** ** The monad: state that survives an exception *)

Definition M (A : Type) : Type := world → outcome A * world.

Definition ret {A} (a : A) : M A := fun w => (Return a, w).
Definition raise {A} (e : exn) : M A := fun w => (Raise e, w).
Definition bind {A B} (m : M A) (k : A → M B) : M B :=
  fun w => match m w with
           | (Return a, w') => k a w'
           | (Raise e, w') => (Raise e, w')
           end.
Definition lift {A} (o : outcome A) : M A := fun w => (o, w).

(** [try: m  except <catches>:] as a value: [inl e] when [m] raised a caught
    [e], [inr a] when it returned; an exception that is not caught goes on. *)
Definition attempt {A} (catches : exn → bool) (m : M A) : M (exn + A) :=
  fun w => match m w with
           | (Return a, w') => (Return (inr a), w')
           | (Raise e, w') =>
               if catches e then (Return (inl e), w') else (Raise e, w')
           end.

(** stdpp's monad notations: [x ← m; k] and [m;; k]. *)
Global Instance M_ret : MRet M := @ret.
Global Instance M_bind : MBind M := λ A B k m, bind m k.

(** ** Strings the way the program formats them *)

(** [str.lower()] on the ASCII letters; other bytes are left alone. *)
Definition lower_ascii (c : ascii) : ascii :=
  let n := Ascii.nat_of_ascii c in
  if (65 <=? n)%nat && (n <=? 90)%nat then Ascii.ascii_of_nat (n + 32) else c.

Fixpoint lower (s : string) : string :=
  match s with
  | EmptyString => EmptyString
  | String c s' => String (lower_ascii c) (lower s')
  end.

(** ['{}'.format(v)] for a value that is a string or [None]. *)
Definition fmt (v : option string) : string := default "None" v.

(** Truth value of a string, and of a string-or-[None]. *)
Definition truthy (s : string) : bool := negb (String.eqb s "").
Definition truthy_opt (v : option string) : bool :=
  match v with Some s => truthy s | None => false end.

(** [os.path.join(a, b)] of posixpath. *)
Definition starts_with_slash (s : string) : bool :=
  match s with String "/"%char _ => true | _ => false end.

Fixpoint ends_with_slash (s : string) : bool :=
  match s with
  | EmptyString => false
  | String c EmptyString => Ascii.eqb c "/"%char
  | String _ s' => ends_with_slash s'
  end.

Definition path_join (a b : string) : string :=
  if starts_with_slash b then b
  else if negb (truthy a) || ends_with_slash a then a +:+ b
  else a +:+ "/" +:+ b.

(** ** The data of the GitHub API, as the program reads it *)

(** One entry of a gist's ["files"] object; only ["raw_url"] is read. *)
Record gist_file : Type := GistFile { gf_raw_url : string }.

(** One gist of the listing: ["id"], ["description"] (may be null) and
    ["files"], keyed by file name. *)
Record gist : Type := MkGistDoc {
  g_id : string;
  g_description : option string;
  g_files : gmap string gist_file
}.

(** The dict yielded by [filter_gists]:
    [{'id': .., 'description': .., 'raw_url': ..}]. *)
Record gist_info : Type := GistInfo {
  gi_id : string;
  gi_description : option string;
  gi_raw_url : string
}.

Global Instance gist_info_eq_dec : EqDecision gist_info.
Proof. solve_decision. Defined.

(** The answer of the identity endpoint: what [response.get('login')] is
    when it is a string. *)
Record identity_doc : Type := IdentityDoc { login : option string }.

Record response : Type := Response {
  getcode : Z;                       (* response.getcode() *)
  read_decode : outcome string       (* response.read().decode('utf-8') *)
}.

Record cli_args : Type := CliArgs {
  args_user : string;
  args_file_name : string;
  args_yes_to_all : bool
}.

(** ** What the program takes from its environment and from the library *)

Class Runtime : Type := {
  (** [os.getenv(name)] *)
  getenv : string → option string;
  (** [parser.parse_args()], given which positionals were added; what
      argparse itself prints when it refuses the command line or shows its
      help is not on the console of the model *)
  parse_args : bool → bool → outcome cli_args;
  (** [os.path.realpath(os.curdir)] and [os.path.abspath] *)
  realpath_curdir : string;
  abspath : string → string;
  (** [Request(url)], [add_header] for each header, [urlopen(request)] *)
  urlopen : string → gmap string string → outcome response;
  (** [json.loads] of the identity endpoint's body *)
  json_loads_user : string → outcome identity_doc;
  (** [json.loads] of the gist listing *)
  json_loads_gists : string → outcome (list gist);
  (** [int(s)] *)
  py_int : string → outcome Z;
  (** how many nested calls of [select_file] the interpreter allows *)
  recursion_limit : nat
}.

(** ** Console and file-system primitives *)

(** [Gist.indent]: ['{}{}'.format(' ' * spaces, message)]. *)
Fixpoint spaces_str (n : nat) : string :=
  match n with O => "" | S n' => String " "%char (spaces_str n') end.

Definition indent (message : string) (spaces : nat) : string :=
  spaces_str spaces +:+ message.

(** [Gist.output]: [print(self.indent(message))]. *)
Definition output (message : string) : M unit :=
  fun w => (Return tt, with_console (console w ++ [Print (indent message 2)]) w).

(** [Gist.ask]: [input(self.indent(message))]; [EOFError] at end of input. *)
Definition ask (message : string) : M string :=
  fun w =>
    let w1 := with_console (console w ++ [Prompt (indent message 2)]) w in
    match stdin w with
    | [] => (Raise EOFError, w1)
    | line :: rest => (Return line, with_stdin rest w1)
    end.

Definition os_path_exists (p : string) : M bool :=
  fun w => (Return (bool_decide (is_Some (fs w !! p))), w).

Definition os_remove (p : string) : M unit :=
  fun w => match fs w !! p with
           | Some _ => (Return tt, with_fs (delete p (fs w)) w)
           | None => (Raise FileNotFoundError, w)
           end.

(** [os.rename(src, dst)]: an existing [dst] is replaced. *)
Definition os_rename (src dst : string) : M unit :=
  fun w => match fs w !! src with
           | Some text => (Return tt, with_fs (<[dst := text]> (delete src (fs w))) w)
           | None => (Raise FileNotFoundError, w)
           end.

(** [open(p, 'w')]: the file exists and is empty from the moment it is
    opened.  The directory of [p] is taken to exist and to be writable: the
    model does not raise here. *)
Definition open_w (p : string) : M unit :=
  fun w => (Return tt, with_fs (<[p := ""]> (fs w)) w).

(** [file_handler.write(text)] on the file opened at [p]; the text is taken
    to be one the file's encoding can hold. *)
Definition file_write (p : string) (text : string) : M unit :=
  fun w => (Return tt, with_fs (<[p := default "" (fs w !! p) +:+ text]> (fs w)) w).

(** ** The [Gist] object *)

Record Gist : Type := MkGist {
  auth : option bool;          (* [None] until [config] sets it *)
  user : string;
  file_name : string;
  assume_yes : bool;
  token : option string;
  local_dir : string;
  local_path : string;
  info : option gist_info      (* [False] is [None] *)
}.

Definition set_auth (v : option bool) (g : Gist) : Gist :=
  MkGist v (user g) (file_name g) (assume_yes g) (token g) (local_dir g) (local_path g) (info g).
Definition set_user (v : string) (g : Gist) : Gist :=
  MkGist (auth g) v (file_name g) (assume_yes g) (token g) (local_dir g) (local_path g) (info g).
Definition set_file_name (v : string) (g : Gist) : Gist :=
  MkGist (auth g) (user g) v (assume_yes g) (token g) (local_dir g) (local_path g) (info g).
Definition set_assume_yes (v : bool) (g : Gist) : Gist :=
  MkGist (auth g) (user g) (file_name g) v (token g) (local_dir g) (local_path g) (info g).
Definition set_token (v : option string) (g : Gist) : Gist :=
  MkGist (auth g) (user g) (file_name g) (assume_yes g) v (local_dir g) (local_path g) (info g).
Definition set_local (dir path : string) (g : Gist) : Gist :=
  MkGist (auth g) (user g) (file_name g) (assume_yes g) (token g) dir path (info g).
Definition set_info (v : option gist_info) (g : Gist) : Gist :=
  MkGist (auth g) (user g) (file_name g) (assume_yes g) (token g) (local_dir g) (local_path g) v.

Definition api_url : string := "https://api.github.com".

(** The [raw_url] property; [False] reads "False" once it is formatted and
    handed to [Request]. *)
Definition raw_url (self : Gist) : string :=
  match info self with
  | Some i => gi_raw_url i
  | None => "False"
  end.

(** [files.index(f)]: the first position that holds a value equal to [f]. *)
Fixpoint list_index (f : gist_info) (files : list gist_info) : option nat :=
  match files with
  | [] => None
  | x :: rest => if decide (x = f) then Some 0 else S <$> list_index f rest
  end.

(** [files[i]], with Python's negative indices. *)
Definition list_getitem (files : list gist_info) (i : Z) : option gist_info :=
  if (i <? 0)%Z then
    if (i + Z.of_nat (length files) <? 0)%Z then None
    else files !! Z.to_nat (i + Z.of_nat (length files))
  else files !! Z.to_nat i.

(** The name tried by [backup] after [count] collisions. *)
Definition backup_name (file_name : string) (count : nat) : string :=
  match count with
  | O => file_name +:+ ".bkp"
  | S _ => file_name +:+ ".bkp" +:+ pretty count
  end.

(** [while os.path.exists(backup): count += 1; ...], at most [fuel] times
    round the loop; the result is the final [count]. *)
Fixpoint backup_loop (fuel : nat) (files : gmap string string)
    (dir file_name : string) (count : nat) : option nat :=
  if bool_decide (is_Some (files !! path_join dir (backup_name file_name count))) then
    match fuel with
    | O => None
    | S fuel' => backup_loop fuel' files dir file_name (S count)
    end
  else Some count.

(** The loop body of [filter_gists], over the listing. *)
Fixpoint filter_loop (file_name : string) (gists : list gist) : list gist_info :=
  match gists with
  | [] => []
  | gist :: rest =>
      match g_files gist !! file_name with
      | Some file =>
          GistInfo (g_id gist) (g_description gist) (gf_raw_url file)
            :: filter_loop file_name rest
      | None => filter_loop file_name rest
      end
  end.

Section Program.
Context `{Runtime}.

(** *** Transport *)

(** The header dict [curl] sends: the caller's, or the shared default one;
    the [Authorization] entry is written into that dict. *)
Definition curl_prepare (self : Gist) (headers : option (gmap string string))
    : M (gmap string string) :=
  fun w =>
    let dict := default (curl_headers w) headers in
    if bool_decide (auth self = Some true)
       && negb (bool_decide (is_Some (dict !! "Authorization"))) then
      let dict' := <["Authorization" := "token " +:+ fmt (token self)]> dict in
      (Return dict',
       match headers with
       | None => with_curl_headers dict' w
       | Some _ => w
       end)
    else (Return dict, w).

Definition curl (self : Gist) (url : string) (headers : option (gmap string string))
    : M string :=
  dict ← curl_prepare self headers;
  output ("Fetching " +:+ url +:+ " …");;
  opened ← attempt is_HTTPError (lift (urlopen url dict));
  match opened with
  | inl _ =>
      output ("[Error] Couldn't reach GitHub at " +:+ url +:+ ".");;
      mret ""
  | inr response =>
      if (getcode response =? 200)%Z then lift (read_decode response)
      else
        (* '[Error] HTTP Status {}.'.format(url, status): the one field takes
           the first argument *)
        output ("[Error] HTTP Status " +:+ url +:+ ".");;
        mret ""
  end.

(** *** Authenticator *)

Definition get_token : M (option string) :=
  let tok := getenv "GETGIST_TOKEN" in
  (if truthy_opt tok then mret tt else output "No access token set.");;
  mret tok.

Definition validate_token (self : Gist) : M bool :=
  if negb (truthy_opt (token self)) then mret false
  else
    let headers : gmap string string :=
      {["Authorization" := "token " +:+ fmt (token self)]} in
    let url := api_url +:+ "/user" in
    text ← curl self url (Some headers);
    response ← lift (json_loads_user text);
    if bool_decide (login response ≠ Some (user self)) then
      output ("Invalid token for user " +:+ user self +:+ ".");;
      mret false
    else mret true.

(** Returns the object with [self.token] set, and the boolean. *)
Definition authenticated (self : Gist) : M (Gist * bool) :=
  tok ← get_token;
  let self := set_token tok self in
  valid ← validate_token self;
  if negb (truthy_opt (token self)) || negb valid then
    output "Looking for public Gists only.";;
    mret (self, false)
  else
    output ("User `" +:+ user self +:+ "` authenticated.");;
    mret (self, true).

Definition config (self : Gist) (user0 file_name0 : string) (assume_yes0 : bool)
    : M Gist :=
  let self := set_assume_yes assume_yes0 (set_file_name file_name0 (set_user user0 self)) in
  self ←
    (if negb (truthy (user self)) || negb (truthy (file_name self)) then
       args ← lift (parse_args (negb (truthy (user self))) (negb (truthy (file_name self))));
       let self := if negb (truthy user0) then set_user (args_user args) self else self in
       let self :=
         if negb (truthy file_name0) then set_file_name (args_file_name args) self else self in
       let self :=
         if negb assume_yes0 then set_assume_yes (args_yes_to_all args) self else self in
       mret self
     else mret self);
  '(self, ok) ← authenticated self;
  let self := set_auth (Some ok) self in
  mret (set_local realpath_curdir (path_join realpath_curdir (file_name self)) self).

(** *** Gist locator *)

Definition query_api (self : Gist) : M (list gist) :=
  let url := api_url +:+ "/users/" +:+ user self +:+ "/gists" in
  contents ← curl self url None;
  if negb (truthy contents) then
    output "[Hint] Check if the entered user name is correct.";;
    mret []
  else lift (json_loads_gists contents).

Definition filter_gists (self : Gist) : M (list gist_info) :=
  gists ← query_api self;
  mret (filter_loop (file_name self) gists).

(** The [for f in files] loop of [select_file]: one line per candidate,
    and the list of accepted indices. *)
Fixpoint list_options (todo files : list gist_info) (valid_indexes : list Z)
    : M (list Z) :=
  match todo with
  | [] => mret valid_indexes
  | f :: rest =>
      match list_index f files with
      | None => raise ValueError
      | Some i =>
          let index := Z.of_nat i in
          output ("[" +:+ pretty (index + 1)%Z +:+ "] " +:+ fmt (gi_description f));;
          list_options rest files (valid_indexes ++ [index])
      end
  end.

(** [depth] is the number of nested calls the interpreter still allows. *)
Fixpoint select_file (depth : nat) (self : Gist) (files : list gist_info)
    : M (option gist_info) :=
  let again : M (option gist_info) :=
    match depth with
    | O => raise RecursionError
    | S depth' => select_file depth' self files
    end in
  match files with
  | [] => mret None
  | first :: _ =>
      if bool_decide (length files = 1) || assume_yes self then mret (Some first)
      else
        output ("Download " +:+ file_name self +:+ " from which Gist?");;
        valid_indexes ← list_options files files [];
        answer ← attempt any_exception
                   (line ← ask "Type the number: ";
                    n ← lift (py_int line);
                    mret (n - 1)%Z);
        match answer with
        | inl _ =>
            output "Please type a number.";;
            again
        | inr gist_index =>
            if negb (bool_decide (gist_index ∈ valid_indexes)) then
              output "Invalid number, please try again.";;
              again
            else
              match list_getitem files gist_index with
              | None => raise IndexError
              | Some selected =>
                  output ("Using `" +:+ fmt (gi_description selected) +:+ "` Gist…");;
                  mret (Some selected)
              end
        end
  end.

Definition load_gist_info (self : Gist) : M (option gist_info) :=
  gists ← filter_gists self;
  if bool_decide (gists ≠ []) then select_file recursion_limit self gists
  else
    output ("[Error] No file named `" +:+ file_name self +:+ "` found in "
            +:+ user self +:+ "'s Gists.");;
    mret None.

(** *** Local reconciler *)

Definition backup (self : Gist) : M unit :=
  fun w =>
    match backup_loop (size (fs w)) (fs w) (local_dir self) (file_name self) 0 with
    | None => (Raise OutOfFuel, w)
    | Some count =>
        let name := backup_name (file_name self) count in
        (output ("Moving existing " +:+ file_name self +:+ " to " +:+ name +:+ "…");;
         os_rename (path_join (local_dir self) (file_name self))
                   (path_join (local_dir self) name)) w
    end.

Definition save (self : Gist) : M unit :=
  present ← os_path_exists (local_path self);
  (if present : bool then
     confirm ←
       (if assume_yes self then mret "y"
        else ask ("Delete existing " +:+ file_name self +:+ " ? (y/n) "));
     if String.eqb (lower confirm) "y" then
       output ("Deleting existing " +:+ file_name self +:+ " …");;
       os_remove (local_path self)
     else backup self
   else mret tt);;
  open_w (local_path self);;
  contents ← curl self (raw_url self) None;
  output ("Saving new " +:+ file_name self +:+ " …");;
  file_write (local_path self) contents;;
  output ("Saved as " +:+ abspath (local_path self));;
  output "Done!".

(** *** Session orchestrator *)

(** [Gist.__init__]. *)
Definition Gist_init (user0 file_name0 : string) (assume_yes0 : bool) : M Gist :=
  let self := MkGist None "" "" false None "" "" None in
  self ← config self user0 file_name0 assume_yes0;
  found ← load_gist_info self;
  mret (set_info found self).

Definition run_getgist : M unit :=
  gist ← Gist_init "" "" false;
  if bool_decide (is_Some (info gist)) then save gist else mret tt.

Definition get_user : M string :=
  match getenv "GETGIST_USER" with
  | Some name =>
      if truthy name then mret name
      else
        output "No default user set yet. To avoid this prompt set an";;
        output "environmental variable called `GETGIST_USER`.";;
        ask "Please type your GitHub user name: "
  | None =>
      output "No default user set yet. To avoid this prompt set an";;
      output "environmental variable called `GETGIST_USER`.";;
      ask "Please type your GitHub user name: "
  end.

(** [MyGist.__init__]. *)
Definition MyGist_init (file_name0 : string) (assume_yes0 : bool) : M Gist :=
  name ← get_user;
  let self := MkGist None "" "" false None "" "" None in
  self ← config self name file_name0 assume_yes0;
  found ← load_gist_info self;
  mret (set_info found self).


End Program.

(** * A simulated runtime, to run the program on concrete inputs *)

Module Sim.

Definition is_digit (c : ascii) : bool :=
  let n := Ascii.nat_of_ascii c in (48 <=? n)%nat && (n <=? 57)%nat.

Fixpoint digits (s : string) (acc : Z) : option Z :=
  match s with
  | EmptyString => Some acc
  | String c s' =>
      if is_digit c
      then digits s' (acc * 10 + Z.of_nat (Ascii.nat_of_ascii c - 48))%Z
      else None
  end.

(** [int(s)] on plain decimal numerals with an optional sign. *)
Definition decimal (s : string) : outcome Z :=
  let unsigned (t : string) : option Z :=
    match t with EmptyString => None | _ => digits t 0 end in
  let parsed :=
    match s with
    | String "-"%char t => Z.opp <$> unsigned t
    | String "+"%char t => unsigned t
    | _ => unsigned s
    end in
  match parsed with Some n => Return n | None => Raise ValueError end.

Definition raw_v1 : string := "https://gist.githubusercontent.com/alice/aa11/raw/notes.txt".
Definition raw_v2 : string := "https://gist.githubusercontent.com/alice/bb22/raw/notes.txt".
Definition raw_todo : string := "https://gist.githubusercontent.com/alice/bb22/raw/todo.md".
Definition raw_config : string := "https://gist.githubusercontent.com/alice/cc33/raw/config.yml".
Definition raw_offline : string := "https://gist.invalid/alice/dd44/raw/offline.txt".
Definition raw_gone : string := "https://gist.githubusercontent.com/alice/ee55/raw/gone.txt".

(** The gists of user alice. *)
Definition alice_gists : list gist :=
  [ MkGistDoc "aa11" (Some "v1") {[ "notes.txt" := GistFile raw_v1 ]};
    MkGistDoc "bb22" (Some "v2")
      (<[ "todo.md" := GistFile raw_todo ]> {[ "notes.txt" := GistFile raw_v2 ]});
    MkGistDoc "cc33" None {[ "config.yml" := GistFile raw_config ]};
    MkGistDoc "dd44" (Some "offline") {[ "offline.txt" := GistFile raw_offline ]};
    MkGistDoc "ee55" (Some "gone") {[ "gone.txt" := GistFile raw_gone ]} ].

(** The network.  The server names its JSON documents instead of spelling
    them out; the decoders below know them by name.  The identity endpoint
    accepts the one token [s3cret], which is alice's. *)
Definition server (url : string) (headers : gmap string string) : outcome response :=
  if decide (url = "https://api.github.com/user") then
    if decide (headers !! "Authorization" = Some "token s3cret")
    then Return (Response 200 (Return "alice.json"))
    else Raise (HTTPError 401)
  else if decide (url = "https://api.github.com/users/alice/gists") then
    Return (Response 200 (Return "gists-of-alice.json"))
  else if decide (url = raw_v1) then Return (Response 200 (Return "first draft"))
  else if decide (url = raw_v2) then Return (Response 200 (Return "second draft"))
  else if decide (url = raw_todo) then Return (Response 200 (Return "buy milk"))
  else if decide (url = raw_config) then Return (Response 200 (Return "debug: true"))
  else if decide (url = raw_offline) then Raise URLError
  else Raise (HTTPError 404).

Definition loads_user (text : string) : outcome identity_doc :=
  if decide (text = "alice.json") then Return (IdentityDoc (Some "alice"))
  else Raise ValueError.

Definition loads_gists (text : string) : outcome (list gist) :=
  if decide (text = "gists-of-alice.json") then Return alice_gists
  else Raise ValueError.

(** A runtime with the given access token and command line, started in
    [/home/alice]. *)
Definition runtime (tok : option string) (args : cli_args) : Runtime := {|
  getenv := λ name, if decide (name = "GETGIST_TOKEN") then tok else None;
  parse_args := λ _ _, Return args;
  realpath_curdir := "/home/alice";
  abspath := λ p, p;
  urlopen := server;
  json_loads_user := loads_user;
  json_loads_gists := loads_gists;
  py_int := decimal;
  recursion_limit := 1000
|}.

(** A world with the given files and the given lines waiting on stdin. *)
Definition start (files : gmap string string) (answers : list string) : world :=
  World [] answers files ∅.

(** The usual runtime: no token, [getgist alice <file>]. *)
Definition anonymous (file : string) : Runtime :=
  runtime None (CliArgs "alice" file false).

(** alice's [Gist] object as [config] leaves it (no token), for the file
    [file], with the resolved gist [found]. *)
Definition alice (file : string) (yes : bool) (found : option gist_info) : Gist :=
  MkGist (Some false) "alice" file yes None
         "/home/alice" (path_join "/home/alice" file) found.

Definition notes_v1 : gist_info := GistInfo "aa11" (Some "v1") raw_v1.
Definition notes_v2 : gist_info := GistInfo "bb22" (Some "v2") raw_v2.
Definition todo : gist_info := GistInfo "bb22" (Some "v2") raw_todo.
Definition offline : gist_info := GistInfo "dd44" (Some "offline") raw_offline.
Definition gone : gist_info := GistInfo "ee55" (Some "gone") raw_gone.

End Sim.

(** * Notions used to state the properties *)

(** The path [backup] probes after [count] collisions. *)
Definition backup_path (dir file_name : string) (count : nat) : string :=
  path_join dir (backup_name file_name count).

(** [n] is the first index of the sequence [.bkp], [.bkp1], [.bkp2], ...
    whose path is free in the directory [files]. *)
Definition first_free (files : gmap string string) (dir file_name : string) (n : nat)
    : Prop :=
  files !! backup_path dir file_name n = None
  ∧ ∀ k, k < n → is_Some (files !! backup_path dir file_name k).

(** What [config] establishes about the two path attributes. *)
Definition configured (self : Gist) : Prop :=
  local_path self = path_join (local_dir self) (file_name self).

(** Backups in a row with no cleanup: each time, the file is there again
    (holding the next of [texts]) and is backed up. *)
Fixpoint backup_rounds (self : Gist) (texts : list string) : M unit :=
  match texts with
  | [] => mret tt
  | text :: later =>
      open_w (local_path self);;
      file_write (local_path self) text;;
      backup self;;
      backup_rounds self later
  end.

(** [m] leaves the observation [obs] of the world as it found it, whether
    it returns or raises. *)
Definition preserves {X A : Type} (obs : world → X) (m : M A) : Prop :=
  ∀ w, obs (m w).2 = obs w.

(** The number of prompts written so far. *)
Definition is_prompt (e : event) : bool :=
  match e with Prompt _ => true | Print _ => false end.
Definition prompts (w : world) : nat := length (filter is_prompt (console w)).

Section Dialogue.
Context `{Runtime}.

(** The index [select_file] computes for candidate [f]: [files.index(f)]. *)
Definition index_in (files : list gist_info) (f : gist_info) : Z :=
  Z.of_nat (default 0 (list_index f files)).

(** What [select_file] writes before it asks: the question and one
    numbered line per candidate. *)
Definition option_line (files : list gist_info) (f : gist_info) : event :=
  Print ("  [" +:+ pretty (index_in files f + 1)%Z +:+ "] " +:+ fmt (gi_description f)).

Definition menu (self : Gist) (files : list gist_info) : list event :=
  Print ("  Download " +:+ file_name self +:+ " from which Gist?")
    :: (option_line files <$> files).

(** The reply of [select_file] to an answer it does not accept. *)
Definition complaint (line : string) : event :=
  match py_int line with
  | Raise _ => Print "  Please type a number."
  | Return _ => Print "  Invalid number, please try again."
  end.

(** Everything written for one refused answer. *)
Definition refused_round (self : Gist) (files : list gist_info) (line : string)
    : list event :=
  menu self files ++ [Prompt "  Type the number: "; complaint line].

(** An answer that is not a number, or a number that is not in [1..n]. *)
Definition refused (n : nat) (line : string) : Prop :=
  ∀ k, py_int line = Return k → ¬ (1 ≤ k ≤ Z.of_nat n)%Z.

(** The line that reports a missing file. *)
Definition not_found_report (self : Gist) : event :=
  Print ("  [Error] No file named `" +:+ file_name self +:+ "` found in "
         +:+ user self +:+ "'s Gists.").

(** What [filter_gists] yields for one gist. *)
Definition gist_match (file_name : string) (g : gist) : list gist_info :=
  match g_files g !! file_name with
  | Some file => [GistInfo (g_id g) (g_description g) (gf_raw_url file)]
  | None => []
  end.

End Dialogue.

Section SaveParts.
Context `{Runtime}.

(** The two blocks of [save], named so that each can be followed on its
    own: what is done about an existing file, and the writing of the new
    one ([save_parts] puts them together again). *)
Definition save_existing (self : Gist) : M unit :=
  present ← os_path_exists (local_path self);
  if present : bool then
    confirm ←
      (if assume_yes self then mret "y"
       else ask ("Delete existing " +:+ file_name self +:+ " ? (y/n) "));
    if String.eqb (lower confirm) "y" then
      output ("Deleting existing " +:+ file_name self +:+ " …");;
      os_remove (local_path self)
    else backup self
  else mret tt.

Definition save_new (self : Gist) : M unit :=
  open_w (local_path self);;
  contents ← curl self (raw_url self) None;
  output ("Saving new " +:+ file_name self +:+ " …");;
  file_write (local_path self) contents;;
  output ("Saved as " +:+ abspath (local_path self));;
  output "Done!".

End SaveParts.

(** [m] keeps the property [P] of the world, whether it returns or raises. *)
Definition keeps {A : Type} (P : world → Prop) (m : M A) : Prop :=
  ∀ w, P w → P (m w).2.


Section Retry.
Context `{Runtime}.

(** The retry of [select_file]: the nested call, if the interpreter still
    allows one. *)
Definition select_again (depth : nat) (self : Gist) (files : list gist_info)
    : M (option gist_info) :=
  match depth with
  | O => raise RecursionError
  | S depth' => select_file depth' self files
  end.

End Retry.

(** A runtime like [Sim.anonymous] whose server accepts every request and
    sends nothing back (status 204). *)
Definition silent_runtime : Runtime := {|
  getenv := λ _, None;
  parse_args := λ _ _, Return (CliArgs "alice" "notes.txt" false);
  realpath_curdir := "/home/alice";
  abspath := λ p, p;
  urlopen := λ _ _, Return (Response 204 (Return ""));
  json_loads_user := Sim.loads_user;
  json_loads_gists := Sim.loads_gists;
  py_int := Sim.decimal;
  recursion_limit := 1000
|}.

(** * Properties *)

(** Unfolds the monad so that a run reads as a chain of [match]es. *)
Ltac run_monad :=
  unfold mbind, M_bind, bind, mret, M_ret, ret, lift, raise in *.

Section Selection.
Context `{Runtime}.

(** C5. A single candidate is returned as it is, whatever the auto-select
    flag says; with auto-select on, several candidates give the first one
    of the listing.  In both cases nothing is printed and nothing is read:
    the world comes back unchanged. *)
Theorem select_file_without_prompt :
  (∀ depth self only w,
     select_file depth self [only] w = (Return (Some only), w))
  ∧ (∀ depth self first second others w,
       select_file depth (set_assume_yes true self) (first :: second :: others) w
       = (Return (Some first), w)).
Proof.
  split.
  - intros depth self only w. destruct depth; reflexivity.
  - intros depth self first second others w. destruct depth; reflexivity.
Qed.

End Selection.

(** ** Strings and paths *)

Lemma append_empty_r (s : string) : s +:+ "" = s.
Proof.
  induction s as [|c s IH]; [reflexivity|].
  cbv [String.append] in *. fold String.append in *. by rewrite IH.
Qed.

Lemma append_String (c : ascii) (s t : string) : String c s +:+ t = String c (s +:+ t).
Proof. reflexivity. Qed.

Lemma append_length (s t : string) :
  String.length (s +:+ t) = (String.length s + String.length t)%nat.
Proof.
  induction s as [|c s IH]; [reflexivity|].
  rewrite append_String. simpl. by rewrite IH.
Qed.

Lemma append_assoc (s t u : string) : (s +:+ t) +:+ u = s +:+ t +:+ u.
Proof.
  induction s as [|c s IH]; [reflexivity|].
  rewrite !append_String. by rewrite IH.
Qed.

Lemma pretty_N_go_length (x : N) (s : string) :
  (String.length s ≤ String.length (pretty_N_go x s))%nat.
Proof.
  revert s. induction (N.lt_wf_0 x) as [x _ IH]. intros s.
  destruct (decide (x = 0)%N) as [->|Hx].
  - by rewrite pretty_N_go_0.
  - rewrite pretty_N_go_step by lia.
    etrans; [|apply IH, N.div_lt; lia]. simpl. lia.
Qed.

Lemma pretty_nat_nonempty (n : nat) : pretty n ≠ "".
Proof.
  unfold pretty, pretty_nat, pretty, pretty_N.
  destruct (decide (N.of_nat n = 0)%N) as [_|Hn]; [discriminate|].
  intros Hempty.
  rewrite pretty_N_go_step in Hempty by lia.
  pose proof (pretty_N_go_length (N.of_nat n `div` 10)
                (String (pretty_N_char (N.of_nat n `mod` 10)) "")) as Hlen.
  rewrite Hempty in Hlen. simpl in Hlen. lia.
Qed.

(** The names [backup] tries are pairwise different. *)
Lemma backup_name_inj (file_name : string) (n m : nat) :
  backup_name file_name n = backup_name file_name m → n = m.
Proof.
  unfold backup_name. destruct n as [|n], m as [|m]; intros Heq.
  - reflexivity.
  - apply String.app_inj in Heq.
    rewrite <- (append_empty_r ".bkp") in Heq at 1.
    apply String.app_inj in Heq. by destruct (pretty_nat_nonempty (S m)).
  - apply String.app_inj in Heq.
    rewrite <- (append_empty_r ".bkp") in Heq at 2.
    apply String.app_inj in Heq. by destruct (pretty_nat_nonempty (S n)).
  - do 2 apply String.app_inj in Heq. by apply pretty_nat_inj in Heq.
Qed.

Lemma backup_name_ne_file (file_name : string) (n : nat) :
  backup_name file_name n ≠ file_name.
Proof.
  intros Heq. apply (f_equal String.length) in Heq.
  unfold backup_name in Heq. destruct n; rewrite !append_length in Heq; simpl in Heq; lia.
Qed.

Lemma starts_with_slash_backup_name (file_name : string) (n : nat) :
  starts_with_slash (backup_name file_name n) = starts_with_slash file_name.
Proof.
  unfold backup_name. destruct file_name as [|c s]; destruct n; reflexivity.
Qed.

Lemma path_join_inj (dir a b : string) :
  starts_with_slash a = starts_with_slash b →
  path_join dir a = path_join dir b → a = b.
Proof.
  unfold path_join. intros ->.
  destruct (starts_with_slash b); [done|].
  destruct (negb (truthy dir) || ends_with_slash dir); intros Heq.
  - by apply String.app_inj in Heq.
  - by do 2 apply String.app_inj in Heq.
Qed.

Lemma backup_path_inj (dir file_name : string) (n m : nat) :
  path_join dir (backup_name file_name n) = path_join dir (backup_name file_name m) →
  n = m.
Proof.
  intros Heq. apply path_join_inj in Heq.
  - by apply backup_name_inj in Heq.
  - by rewrite !starts_with_slash_backup_name.
Qed.

Lemma backup_path_ne_file (dir file_name : string) (n : nat) :
  path_join dir (backup_name file_name n) ≠ path_join dir file_name.
Proof.
  intros Heq. apply path_join_inj in Heq.
  - by apply backup_name_ne_file in Heq.
  - apply starts_with_slash_backup_name.
Qed.

(** ** The backup loop *)

Section BackupLoop.
Variables (files : gmap string string) (dir file_name : string).

Lemma backup_loop_Some (fuel count n : nat) :
  backup_loop fuel files dir file_name count = Some n →
  count ≤ n
  ∧ files !! backup_path dir file_name n = None
  ∧ ∀ k, count ≤ k < n → is_Some (files !! backup_path dir file_name k).
Proof.
  revert count. induction fuel as [|fuel IH]; intros count; simpl;
    case_bool_decide as Htaken.
  - discriminate.
  - intros [= <-]. split_and!; [lia| by apply eq_None_not_Some |intros; lia].
  - intros Hloop. destruct (IH _ Hloop) as (Hle & Hfree & Hbelow).
    split_and!; [lia|done|]. intros k Hk.
    destruct (decide (k = count)) as [->|]; [done|]. apply Hbelow. lia.
  - intros [= <-]. split_and!; [lia| by apply eq_None_not_Some |intros; lia].
Qed.

Lemma backup_loop_None (fuel count : nat) :
  backup_loop fuel files dir file_name count = None →
  ∀ k, count ≤ k ≤ count + fuel → is_Some (files !! backup_path dir file_name k).
Proof.
  revert count. induction fuel as [|fuel IH]; intros count; simpl;
    case_bool_decide as Htaken; try discriminate.
  - intros _ k Hk. by replace k with count by lia.
  - intros Hloop k Hk.
    destruct (decide (k = count)) as [->|]; [done|]. apply (IH _ Hloop). lia.
Qed.

(** A directory of [size files] files cannot hold [size files + 1]
    different backup paths. *)
Lemma backup_paths_pigeonhole :
  ¬ ∀ k, k ≤ size files → is_Some (files !! backup_path dir file_name k).
Proof.
  intros Hall.
  set (paths := backup_path dir file_name <$> seq 0 (S (size files))).
  assert (NoDup paths) as Hnodup.
  { apply NoDup_fmap_2_strong; [|apply NoDup_seq].
    intros i j _ _. apply backup_path_inj. }
  assert (list_to_set paths ⊆ dom files) as Hsub.
  { intros p Hp. apply elem_of_list_to_set in Hp.
    apply list_elem_of_fmap in Hp as (k & -> & Hk).
    apply elem_of_seq in Hk. apply elem_of_dom, Hall. lia. }
  apply subseteq_size in Hsub.
  rewrite size_list_to_set, size_dom in Hsub by done.
  unfold paths in Hsub. rewrite length_fmap, length_seq in Hsub. lia.
Qed.

(** The loop of [backup] ends within its budget. *)
Lemma backup_loop_total :
  ∃ n, backup_loop (size files) files dir file_name 0 = Some n.
Proof.
  destruct (backup_loop (size files) files dir file_name 0) as [n|] eqn:Hloop;
    [by exists n|].
  destruct backup_paths_pigeonhole. intros k Hk.
  apply (backup_loop_None _ _ Hloop). lia.
Qed.

Lemma backup_loop_first_free (n : nat) :
  backup_loop (size files) files dir file_name 0 = Some n →
  first_free files dir file_name n.
Proof.
  intros Hloop. apply backup_loop_Some in Hloop as (_ & Hfree & Hbelow).
  split; [done|]. intros k Hk. apply Hbelow. lia.
Qed.

Lemma first_free_unique (n m : nat) :
  first_free files dir file_name n → first_free files dir file_name m → n = m.
Proof.
  intros [Hn Hbelow_n] [Hm Hbelow_m].
  destruct (lt_eq_lt_dec n m) as [[Hlt| ->]|Hlt]; [|done|].
  - apply Hbelow_m in Hlt as [? ?]. congruence.
  - apply Hbelow_n in Hlt as [? ?]. congruence.
Qed.

End BackupLoop.

(** One run of [backup]: the existing file moves to the first free backup
    path, and one line is printed. *)
Lemma backup_run (self : Gist) (w : world) (old : string) :
  fs w !! path_join (local_dir self) (file_name self) = Some old →
  ∃ n,
    first_free (fs w) (local_dir self) (file_name self) n
    ∧ backup self w
      = (Return tt,
         with_fs (<[backup_path (local_dir self) (file_name self) n := old]>
                    (delete (path_join (local_dir self) (file_name self)) (fs w)))
           (with_console
              (console w ++
                 [Print ("  Moving existing " +:+ file_name self +:+ " to "
                         +:+ backup_name (file_name self) n +:+ "…")]) w)).
Proof.
  intros Hold. unfold backup.
  destruct (backup_loop_total (fs w) (local_dir self) (file_name self)) as [n Hloop].
  exists n. split; [by apply backup_loop_first_free|].
  rewrite Hloop. run_monad. unfold output, os_rename. simpl. by rewrite Hold.
Qed.

Lemma first_free_frame (files files' : gmap string string) (dir file_name : string) (n : nat) :
  (∀ k, files' !! backup_path dir file_name k = files !! backup_path dir file_name k) →
  first_free files dir file_name n → first_free files' dir file_name n.
Proof.
  intros Hsame [Hfree Hbelow]. split; [by rewrite Hsame|].
  intros k Hk. rewrite Hsame. by apply Hbelow.
Qed.

(** Backups in a row, from a directory where the backup paths below [j]
    are taken and those from [j] on are free: round [i] fills path [j + i]. *)
Lemma backup_rounds_from (self : Gist) (texts : list string) :
  configured self →
  ∀ (j : nat) (w : world),
    (∀ k, k < j → is_Some (fs w !! backup_path (local_dir self) (file_name self) k)) →
    (∀ n, j ≤ n → fs w !! backup_path (local_dir self) (file_name self) n = None) →
    ∃ w',
      backup_rounds self texts w = (Return tt, w')
      ∧ (∀ i text, texts !! i = Some text →
           fs w' !! backup_path (local_dir self) (file_name self) (j + i) = Some text)
      ∧ (∀ n, j + length texts ≤ n →
           fs w' !! backup_path (local_dir self) (file_name self) n = None)
      ∧ (∀ p, p ≠ local_path self →
           (∀ n, j ≤ n → p ≠ backup_path (local_dir self) (file_name self) n) →
           fs w' !! p = fs w !! p).
Proof.
  intros Hconf. unfold configured in Hconf.
  induction texts as [|text later IH]; intros j w Htaken Hfree.
  - exists w. split_and!; try done.
    intros n Hn. apply Hfree. simpl in Hn. lia.
  - set (w1 := with_fs (<[local_path self := text]> (fs w)) w).
    assert (fs w1 !! path_join (local_dir self) (file_name self) = Some text)
      as Hfile by (rewrite <- Hconf; apply lookup_insert_eq).
    assert (∀ k, fs w1 !! backup_path (local_dir self) (file_name self) k
                 = fs w !! backup_path (local_dir self) (file_name self) k) as Hsame.
    { intros k. simpl. rewrite lookup_insert_ne; [done|].
      rewrite Hconf. intros Heq. symmetry in Heq.
      by apply (backup_path_ne_file (local_dir self) (file_name self) k). }
    destruct (backup_run self w1 text Hfile) as (n & Hn & Hrun).
    assert (n = j) as ->.
    { apply (first_free_unique (fs w1) (local_dir self) (file_name self)); [done|].
      apply (first_free_frame (fs w)); [done|].
      split; [apply Hfree; lia | done]. }
    match type of Hrun with _ = (_, ?w2') => set (w2 := w2') in * end.
    assert (∀ p, fs w2 !! p
                 = if decide (p = backup_path (local_dir self) (file_name self) j)
                   then Some text
                   else if decide (p = local_path self) then None else fs w !! p)
      as Hfs2.
    { intros p. simpl. rewrite <- Hconf.
      destruct (decide (p = backup_path (local_dir self) (file_name self) j)) as [->|Hp].
      - apply lookup_insert_eq.
      - rewrite lookup_insert_ne by done.
        destruct (decide (p = local_path self)) as [->|Hp'].
        + apply lookup_delete_eq.
        + rewrite lookup_delete_ne by done. by rewrite lookup_insert_ne. }
    assert (∀ k, backup_path (local_dir self) (file_name self) k ≠ local_path self)
      as Hne by (intros k; rewrite Hconf; apply backup_path_ne_file).
    destruct (IH (S j) w2) as (w' & Hrest & Hfilled & Hfree' & Hother).
    { intros k Hk. rewrite Hfs2. case_decide as Hk'; [done|].
      rewrite decide_False by apply Hne. apply Htaken.
      assert (k ≠ j) by (intros ->; done). lia. }
    { intros k Hk. rewrite Hfs2.
      rewrite decide_False by (intros Heq; apply backup_path_inj in Heq; lia).
      rewrite decide_False by apply Hne. apply Hfree. lia. }
    exists w'. split_and!.
    + simpl. run_monad. unfold open_w, file_write. simpl.
      rewrite lookup_insert_eq, insert_insert_eq. simpl.
      change (with_fs _ (with_fs _ w)) with w1. rewrite Hrun. exact Hrest.
    + intros [|i] text' Hi; simpl in Hi.
      * injection Hi as <-. rewrite Nat.add_0_r.
        rewrite Hother; [by rewrite Hfs2, decide_True| apply Hne |].
        intros m Hm Heq. apply backup_path_inj in Heq. lia.
      * replace (j + S i) with (S j + i) by lia. by apply Hfilled.
    + intros m Hm. apply Hfree'. simpl in Hm. lia.
    + intros p Hp Hslots. rewrite Hother; [|done|intros m Hm; apply Hslots; lia].
      rewrite Hfs2. rewrite decide_False by (apply Hslots; lia).
      by rewrite decide_False.
Qed.

(** C4. From any directory, [backup] moves the existing file to the first
    path of the sequence [<name>.bkp], [<name>.bkp1], [<name>.bkp2], ...
    that is free, so no file that was there is replaced; and starting where
    no backup exists yet, [K] backups in a row leave exactly the [K] files
    [<name>.bkp], [<name>.bkp1], ..., [<name>.bkp{K-1}], which are pairwise
    different and hold the [K] texts in order. *)
Theorem backup_first_free_name (self : Gist) :
  configured self →
  (∀ w old,
     fs w !! local_path self = Some old →
     ∃ n w',
       backup self w = (Return tt, w')
       ∧ first_free (fs w) (local_dir self) (file_name self) n
       ∧ fs w' = <[backup_path (local_dir self) (file_name self) n := old]>
                   (delete (local_path self) (fs w))
       ∧ (∀ p, p ≠ local_path self → is_Some (fs w !! p) → fs w' !! p = fs w !! p))
  ∧ (∀ w texts,
       (∀ n, fs w !! backup_path (local_dir self) (file_name self) n = None) →
       ∃ w',
         backup_rounds self texts w = (Return tt, w')
         ∧ (∀ i text, texts !! i = Some text →
              fs w' !! backup_path (local_dir self) (file_name self) i = Some text)
         ∧ (∀ n, length texts ≤ n →
              fs w' !! backup_path (local_dir self) (file_name self) n = None)
         ∧ (∀ p, p ≠ local_path self →
              (∀ n, p ≠ backup_path (local_dir self) (file_name self) n) →
              fs w' !! p = fs w !! p))
  ∧ (∀ i j,
       backup_path (local_dir self) (file_name self) i
       = backup_path (local_dir self) (file_name self) j → i = j)
  ∧ backup_path (local_dir self) (file_name self) 0
    = path_join (local_dir self) (file_name self +:+ ".bkp")
  ∧ (∀ i, backup_path (local_dir self) (file_name self) (S i)
          = path_join (local_dir self) (file_name self +:+ ".bkp" +:+ pretty (S i))).
Proof.
  intros Hconf. split_and!.
  - intros w old Hold. pose proof Hconf as Hpath. unfold configured in Hpath.
    rewrite Hpath in Hold.
    destruct (backup_run self w old Hold) as (n & Hn & Hrun).
    eexists n, _. split_and!; [exact Hrun|done|by rewrite Hpath|].
    intros p Hp [text Htext]. simpl. rewrite <- Hpath.
    rewrite lookup_insert_ne.
    + by rewrite lookup_delete_ne.
    + intros <-. destruct Hn as [Hn _]. congruence.
  - intros w texts Hclean.
    destruct (backup_rounds_from self texts Hconf 0 w) as (w' & Hrun & H1 & H2 & H3).
    { intros k Hk. lia. }
    { intros n _. apply Hclean. }
    exists w'. split_and!; [done|exact H1|exact H2|].
    intros p Hp Hslots. apply H3; [done|]. intros n _. apply Hslots.
  - intros i j. apply backup_path_inj.
  - reflexivity.
  - reflexivity.
Qed.

(** ** Transport *)

Section Transport.
Context `{Runtime}.

(** [curl] always gets past its header step, which leaves console, input
    and files alone. *)
Lemma curl_prepare_returns (self : Gist) (headers : option (gmap string string)) (w : world) :
  ∃ dict w1,
    curl_prepare self headers w = (Return dict, w1)
    ∧ console w1 = console w ∧ stdin w1 = stdin w ∧ fs w1 = fs w.
Proof.
  unfold curl_prepare.
  destruct (bool_decide (auth self = Some true)
            && negb (bool_decide (is_Some (default (curl_headers w) headers !! "Authorization"))));
    [destruct headers|]; eauto 10.
Qed.

(** A caller's dict that already has the header is sent as it is. *)
Lemma curl_prepare_explicit (self : Gist) (dict : gmap string string) (w : world) :
  is_Some (dict !! "Authorization") →
  curl_prepare self (Some dict) w = (Return dict, w).
Proof.
  intros Hauth. unfold curl_prepare. simpl.
  rewrite (bool_decide_eq_true_2 _ Hauth). by rewrite andb_false_r.
Qed.

(** [curl], once the dict to send is known. *)
Lemma curl_unfold (self : Gist) (url : string) (headers : option (gmap string string))
    (w w1 : world) (dict : gmap string string) :
  curl_prepare self headers w = (Return dict, w1) →
  curl self url headers w
  = let w2 := with_console (console w1 ++ [Print ("  Fetching " +:+ url +:+ " …")]) w1 in
    match urlopen url dict with
    | Raise e =>
        if is_HTTPError e then
          (Return "",
           with_console
             (console w2 ++ [Print ("  [Error] Couldn't reach GitHub at " +:+ url +:+ ".")]) w2)
        else (Raise e, w2)
    | Return response =>
        if (getcode response =? 200)%Z then (read_decode response, w2)
        else
          (Return "",
           with_console (console w2 ++ [Print ("  [Error] HTTP Status " +:+ url +:+ ".")]) w2)
    end.
Proof.
  intros Hprep. unfold curl. run_monad. rewrite Hprep.
  unfold output, attempt. simpl.
  destruct (urlopen url dict) as [response|e]; simpl.
  - by destruct (getcode response =? 200)%Z.
  - by destruct (is_HTTPError e).
Qed.

(** An [HTTPError] is recovered: a diagnostic with the URL, and [""]. *)
Lemma curl_recovers_HTTPError (self : Gist) (url : string)
    (headers : option (gmap string string)) (w : world) :
  (∀ dict, ∃ code, urlopen url dict = Raise (HTTPError code)) →
  ∃ w',
    curl self url headers w = (Return "", w')
    ∧ console w'
      = console w ++ [Print ("  Fetching " +:+ url +:+ " …");
                      Print ("  [Error] Couldn't reach GitHub at " +:+ url +:+ ".")]
    ∧ stdin w' = stdin w ∧ fs w' = fs w.
Proof.
  intros Hnet.
  destruct (curl_prepare_returns self headers w) as (dict & w1 & Hprep & Hc & Hi & Hf).
  rewrite (curl_unfold _ _ _ _ _ _ Hprep).
  destruct (Hnet dict) as [code ->]. simpl.
  eexists. split_and!; [done|simpl|done|done].
  by rewrite Hc, <- app_assoc.
Qed.

(** A status other than 200 is recovered the same way. *)
Lemma curl_recovers_status (self : Gist) (url : string)
    (headers : option (gmap string string)) (w : world) :
  (∀ dict, ∃ response,
     urlopen url dict = Return response ∧ getcode response ≠ 200%Z) →
  ∃ w',
    curl self url headers w = (Return "", w')
    ∧ console w'
      = console w ++ [Print ("  Fetching " +:+ url +:+ " …");
                      Print ("  [Error] HTTP Status " +:+ url +:+ ".")]
    ∧ stdin w' = stdin w ∧ fs w' = fs w.
Proof.
  intros Hnet.
  destruct (curl_prepare_returns self headers w) as (dict & w1 & Hprep & Hc & Hi & Hf).
  rewrite (curl_unfold _ _ _ _ _ _ Hprep).
  destruct (Hnet dict) as (response & -> & Hcode). simpl.
  apply Z.eqb_neq in Hcode. rewrite Hcode.
  eexists. split_and!; [done|simpl|done|done].
  by rewrite Hc, <- app_assoc.
Qed.

(** Status 200: the decoded body, and nothing but the progress line. *)
Lemma curl_fetches (self : Gist) (url : string)
    (headers : option (gmap string string)) (w : world) (body : outcome string) :
  (∀ dict, urlopen url dict = Return (Response 200 body)) →
  ∃ w',
    curl self url headers w = (body, w')
    ∧ console w' = console w ++ [Print ("  Fetching " +:+ url +:+ " …")]
    ∧ stdin w' = stdin w ∧ fs w' = fs w.
Proof.
  intros Hnet.
  destruct (curl_prepare_returns self headers w) as (dict & w1 & Hprep & Hc & Hi & Hf).
  rewrite (curl_unfold _ _ _ _ _ _ Hprep), Hnet. simpl.
  eexists. split_and!; [done|simpl|done|done]. by rewrite Hc.
Qed.

(** C1 (the code departs from it).  [curl] recovers from [HTTPError] only.
    Any other exception of [urlopen] (an unreachable host is a [URLError],
    a timeout a [socket.timeout]) leaves [curl] as it came: no diagnostic is
    printed and no [""] is returned. *)
Theorem curl_propagates_other_errors (self : Gist) (url : string)
    (headers : option (gmap string string)) (w : world) (e : exn) :
  is_HTTPError e = false →
  (∀ dict, urlopen url dict = Raise e) →
  ∃ w',
    curl self url headers w = (Raise e, w')
    ∧ console w' = console w ++ [Print ("  Fetching " +:+ url +:+ " …")].
Proof.
  intros Hclass Hnet.
  destruct (curl_prepare_returns self headers w) as (dict & w1 & Hprep & Hc & _).
  rewrite (curl_unfold _ _ _ _ _ _ Hprep), Hnet, Hclass. simpl.
  eexists. split; [done|]. simpl. by rewrite Hc.
Qed.

End Transport.

(** ** What printing and fetching leave alone *)

Section Frame.
Context `{Runtime} {X : Type} (obs : world → X).
Hypothesis obs_print :
  ∀ line w, obs (with_console (console w ++ [Print line]) w) = obs w.
Hypothesis obs_headers : ∀ dict w, obs (with_curl_headers dict w) = obs w.

Lemma preserves_ret {A} (a : A) : preserves obs (ret a).
Proof. by intros w. Qed.

Lemma preserves_raise {A} (e : exn) : preserves obs (@raise A e).
Proof. by intros w. Qed.

Lemma preserves_lift {A} (o : outcome A) : preserves obs (lift o).
Proof. by intros w. Qed.

Lemma preserves_bind {A B} (m : M A) (k : A → M B) :
  preserves obs m → (∀ a, preserves obs (k a)) → preserves obs (bind m k).
Proof.
  intros Hm Hk w. unfold bind. specialize (Hm w).
  destruct (m w) as [[a|e] w1]; simpl in *; [|done].
  by rewrite Hk.
Qed.

Lemma preserves_attempt {A} (catches : exn → bool) (m : M A) :
  preserves obs m → preserves obs (attempt catches m).
Proof.
  intros Hm w. unfold attempt. specialize (Hm w).
  destruct (m w) as [[a|e] w1]; simpl in *; [done|].
  by destruct (catches e).
Qed.

Lemma preserves_output (message : string) : preserves obs (output message).
Proof. intros w. apply obs_print. Qed.

Lemma preserves_curl_prepare (self : Gist) (headers : option (gmap string string)) :
  preserves obs (curl_prepare self headers).
Proof.
  intros w. unfold curl_prepare.
  destruct (_ && _); [|done]. destruct headers; [done|]. apply obs_headers.
Qed.

(** One step of a frame proof: split a bind, close a primitive, or case on
    the scrutinee of the next branch. *)
Ltac frame_step :=
  match goal with
  | |- preserves _ (mbind _ _) => unfold mbind, M_bind
  | |- preserves _ (mret _) => apply preserves_ret
  | |- preserves _ (bind _ _) => apply preserves_bind; [|intros ?]
  | |- preserves _ (ret _) => apply preserves_ret
  | |- preserves _ (raise _) => apply preserves_raise
  | |- preserves _ (lift _) => apply preserves_lift
  | |- preserves _ (attempt _ _) => apply preserves_attempt
  | |- preserves _ (output _) => apply preserves_output
  | |- preserves _ (curl_prepare _ _) => apply preserves_curl_prepare
  | |- preserves _ (if ?b then _ else _) => destruct b
  | |- preserves _ (match ?x with _ => _ end) => destruct x
  end.

Lemma preserves_curl (self : Gist) (url : string) (headers : option (gmap string string)) :
  preserves obs (curl self url headers).
Proof. unfold curl. repeat frame_step. Qed.

Lemma preserves_get_token : preserves obs get_token.
Proof. unfold get_token. repeat frame_step. Qed.

Lemma preserves_validate_token (self : Gist) : preserves obs (validate_token self).
Proof.
  unfold validate_token. repeat (frame_step || apply preserves_curl).
Qed.

Lemma preserves_authenticated (self : Gist) : preserves obs (authenticated self).
Proof.
  unfold authenticated.
  repeat (frame_step || apply preserves_get_token || apply preserves_validate_token).
Qed.

Lemma preserves_config (self : Gist) (user0 file_name0 : string) (assume_yes0 : bool) :
  preserves obs (config self user0 file_name0 assume_yes0).
Proof.
  unfold config. repeat (frame_step || apply preserves_authenticated).
Qed.

Lemma preserves_query_api (self : Gist) : preserves obs (query_api self).
Proof. unfold query_api. repeat (frame_step || apply preserves_curl). Qed.

Lemma preserves_filter_gists (self : Gist) : preserves obs (filter_gists self).
Proof. unfold filter_gists. repeat (frame_step || apply preserves_query_api). Qed.

End Frame.

Lemma fs_print (line : string) (w : world) :
  fs (with_console (console w ++ [Print line]) w) = fs w.
Proof. reflexivity. Qed.

Lemma stdin_print (line : string) (w : world) :
  stdin (with_console (console w ++ [Print line]) w) = stdin w.
Proof. reflexivity. Qed.

Lemma prompts_print (line : string) (w : world) :
  prompts (with_console (console w ++ [Print line]) w) = prompts w.
Proof.
  unfold prompts. simpl. rewrite filter_app, length_app. simpl. lia.
Qed.

(** ** Authenticator *)

Section Authenticator.
Context `{Runtime}.

(** X21. Without a token (unset or empty) nothing is fetched: two notices,
    and [False]. *)
Lemma authenticated_without_token (self : Gist) (w : world) :
  truthy_opt (getenv "GETGIST_TOKEN") = false →
  authenticated self w
  = (Return (set_token (getenv "GETGIST_TOKEN") self, false),
     with_console (console w ++ [Print "  No access token set.";
                                 Print "  Looking for public Gists only."]) w).
Proof.
  intros Hnone. unfold authenticated, get_token, validate_token. run_monad.
  rewrite Hnone. simpl. rewrite Hnone. simpl.
  unfold output. simpl. by rewrite <- app_assoc.
Qed.

(** X22. A token whose login is not the user's: a notice naming the user,
    then the run goes on without authentication. *)
Lemma authenticated_login_mismatch (self : Gist) (w : world)
    (tok body : string) (doc : identity_doc) :
  getenv "GETGIST_TOKEN" = Some tok →
  truthy tok = true →
  urlopen (api_url +:+ "/user") {["Authorization" := "token " +:+ tok]}
  = Return (Response 200 (Return body)) →
  json_loads_user body = Return doc →
  login doc ≠ Some (user self) →
  authenticated self w
  = (Return (set_token (Some tok) self, false),
     with_console
       (console w ++ [Print ("  Fetching " +:+ api_url +:+ "/user" +:+ " …");
                      Print ("  Invalid token for user " +:+ user self +:+ ".");
                      Print "  Looking for public Gists only."]) w).
Proof.
  intros Htok Htruthy Hnet Hjson Hlogin.
  unfold authenticated, get_token, validate_token. run_monad.
  rewrite Htok. simpl. repeat (rewrite Htruthy; simpl).
  rewrite (curl_unfold _ _ _ w w ({["Authorization" := "token " +:+ tok]}));
    [|apply curl_prepare_explicit; rewrite lookup_singleton_eq; by eexists].
  rewrite Hnet. simpl. rewrite Hjson.
  rewrite (bool_decide_eq_true_2 _ Hlogin).
  unfold output. simpl. by rewrite <- !app_assoc.
Qed.

(** X23. A token whose login is the user's: [True], and a line that names
    the user. *)
Lemma authenticated_valid (self : Gist) (w : world) (tok body : string) :
  getenv "GETGIST_TOKEN" = Some tok →
  truthy tok = true →
  urlopen (api_url +:+ "/user") {["Authorization" := "token " +:+ tok]}
  = Return (Response 200 (Return body)) →
  json_loads_user body = Return (IdentityDoc (Some (user self))) →
  authenticated self w
  = (Return (set_token (Some tok) self, true),
     with_console
       (console w ++ [Print ("  Fetching " +:+ api_url +:+ "/user" +:+ " …");
                      Print ("  User `" +:+ user self +:+ "` authenticated.")]) w).
Proof.
  intros Htok Htruthy Hnet Hjson.
  unfold authenticated, get_token, validate_token. run_monad.
  rewrite Htok. simpl. repeat (rewrite Htruthy; simpl).
  rewrite (curl_unfold _ _ _ w w ({["Authorization" := "token " +:+ tok]}));
    [|apply curl_prepare_explicit; rewrite lookup_singleton_eq; by eexists].
  rewrite Hnet. simpl. rewrite Hjson. simpl.
  rewrite bool_decide_eq_false_2 by (intros Hne; by apply Hne).
  unfold output. simpl. by rewrite <- !app_assoc.
Qed.

(** C2 (the code departs from it).  With a token set, when the fetch of the
    identity endpoint fails, [curl] hands [""] to [json.loads], which
    raises; [validate_token] has no guard for it (as [query_api] has), so
    the exception leaves [authenticated]: no anonymous state, no notice. *)
Theorem authenticated_raises_on_failed_fetch (self : Gist) (w : world)
    (tok : string) (code : Z) (e : exn) :
  getenv "GETGIST_TOKEN" = Some tok →
  truthy tok = true →
  urlopen (api_url +:+ "/user") {["Authorization" := "token " +:+ tok]}
  = Raise (HTTPError code) →
  json_loads_user "" = Raise e →
  authenticated self w
  = (Raise e,
     with_console
       (console w ++ [Print ("  Fetching " +:+ api_url +:+ "/user" +:+ " …");
                      Print ("  [Error] Couldn't reach GitHub at "
                             +:+ api_url +:+ "/user" +:+ ".")]) w).
Proof.
  intros Htok Htruthy Hnet Hjson.
  unfold authenticated, get_token, validate_token. run_monad.
  rewrite Htok. simpl. repeat (rewrite Htruthy; simpl).
  rewrite (curl_unfold _ _ _ w w ({["Authorization" := "token " +:+ tok]}));
    [|apply curl_prepare_explicit; rewrite lookup_singleton_eq; by eexists].
  rewrite Hnet. simpl. rewrite Hjson.
  by rewrite <- !app_assoc.
Qed.

(** After [config], the two path attributes fit together. *)
Lemma config_configured (self self' : Gist) (user0 file_name0 : string)
    (assume_yes0 : bool) (w w' : world) :
  config self user0 file_name0 assume_yes0 w = (Return self', w') →
  configured self'.
Proof.
  intros Hrun. unfold config in Hrun. run_monad.
  repeat case_match; simplify_eq; reflexivity.
Qed.

End Authenticator.

(** ** Gist locator *)

Lemma filter_loop_app (file_name : string) (before after : list gist) :
  filter_loop file_name (before ++ after)
  = filter_loop file_name before ++ filter_loop file_name after.
Proof.
  induction before as [|g before IH]; [done|]. simpl.
  destruct (g_files g !! file_name); simpl; by rewrite IH.
Qed.

Lemma filter_loop_cons (file_name : string) (g : gist) (after : list gist) :
  filter_loop file_name (g :: after)
  = gist_match file_name g ++ filter_loop file_name after.
Proof. unfold gist_match. simpl. by destruct (g_files g !! file_name). Qed.

Lemma filter_loop_no_match (file_name : string) (listing : list gist) :
  (∀ g, g ∈ listing → g_files g !! file_name = None) →
  filter_loop file_name listing = [].
Proof.
  induction listing as [|g listing IH]; intros Hnone; [done|]. simpl.
  rewrite (Hnone g) by apply list_elem_of_here.
  apply IH. intros g' Hg'. apply Hnone. by apply list_elem_of_further.
Qed.

Lemma elem_of_filter_loop (file_name : string) (listing : list gist) (m : gist_info) :
  m ∈ filter_loop file_name listing
  ↔ ∃ g file,
      g ∈ listing ∧ g_files g !! file_name = Some file
      ∧ m = GistInfo (g_id g) (g_description g) (gf_raw_url file).
Proof.
  induction listing as [|g listing IH]; simpl.
  - split; [by intros ?%elem_of_nil | by intros (? & ? & ?%elem_of_nil & _)].
  - destruct (g_files g !! file_name) as [file|] eqn:Hfile.
    + rewrite elem_of_cons, IH. split.
      * intros [->|(g' & file' & Hg' & Hfile' & ->)].
        -- exists g, file. split_and!; [apply list_elem_of_here|done..].
        -- exists g', file'. split_and!; [by apply list_elem_of_further|done..].
      * intros (g' & file' & Hg' & Hfile' & ->).
        apply elem_of_cons in Hg' as [->|Hg'].
        -- left. congruence.
        -- right. eauto.
    + rewrite IH. split.
      * intros (g' & file' & Hg' & Hfile' & ->).
        exists g', file'. split_and!; [by apply list_elem_of_further|done..].
      * intros (g' & file' & Hg' & Hfile' & ->).
        apply elem_of_cons in Hg' as [->|Hg']; [congruence|eauto].
Qed.

Section Locator.
Context `{Runtime}.

(** C8. Whatever listing [query_api] returns and wherever a gist stands in
    it, [filter_gists] yields for that gist, in the gist's place, exactly
    one match when the file name is a key of the gist's files (the match
    holds the gist's id, its description and that file's raw URL), and
    nothing when it is not. *)
Theorem filter_gists_spec (self : Gist) (w w' : world)
    (before after : list gist) (g : gist) :
  query_api self w = (Return (before ++ g :: after), w') →
  ∃ own,
    filter_gists self w
    = (Return (filter_loop (file_name self) before ++ own
               ++ filter_loop (file_name self) after), w')
    ∧ (file_name self ∈ dom (g_files g) →
       ∃ file,
         g_files g !! file_name self = Some file
         ∧ own = [GistInfo (g_id g) (g_description g) (gf_raw_url file)])
    ∧ (file_name self ∉ dom (g_files g) → own = []).
Proof.
  intros Hquery. exists (gist_match (file_name self) g). split_and!.
  - unfold filter_gists. run_monad. rewrite Hquery.
    by rewrite filter_loop_app, filter_loop_cons.
  - intros [file Hfile]%elem_of_dom. exists file.
    unfold gist_match. by rewrite Hfile.
  - intros Hnot%not_elem_of_dom. unfold gist_match. by rewrite Hnot.
Qed.

(** *** [select_file] *)

Lemma list_index_lookup (files : list gist_info) (f : gist_info) (i : nat) :
  list_index f files = Some i → files !! i = Some f.
Proof.
  revert i. induction files as [|x files IH]; intros i; simpl; [done|].
  case_decide as Hx.
  - intros [= <-]. by rewrite Hx.
  - destruct (list_index f files) as [j|]; simpl; [|done].
    intros [= <-]. simpl. by apply IH.
Qed.

Lemma list_index_elem_of (files : list gist_info) (f : gist_info) :
  f ∈ files → is_Some (list_index f files).
Proof.
  induction files as [|x files IH]; [by intros ?%elem_of_nil|].
  intros Hin. simpl. case_decide as Hx; [by eexists|].
  apply elem_of_cons in Hin as [->|Hin]; [done|].
  destruct (IH Hin) as [j ->]. by eexists.
Qed.

Lemma list_index_NoDup (files : list gist_info) (f : gist_info) (i : nat) :
  NoDup files → files !! i = Some f → list_index f files = Some i.
Proof.
  intros Hnodup. revert i.
  induction Hnodup as [|x files Hx Hnodup IH]; intros i Hi; [done|].
  simpl. destruct i as [|i]; simpl in Hi.
  - injection Hi as ->. by rewrite decide_True.
  - rewrite decide_False.
    + by rewrite (IH i Hi).
    + intros ->. apply Hx. by eapply list_elem_of_lookup_2.
Qed.

(** The accepted indices always lie within the list. *)
Lemma index_in_bounds (files : list gist_info) (f : gist_info) :
  f ∈ files → (0 ≤ index_in files f < Z.of_nat (length files))%Z.
Proof.
  intros Hin. unfold index_in.
  destruct (list_index_elem_of files f Hin) as [i Hi]. rewrite Hi. simpl.
  apply list_index_lookup, lookup_lt_Some in Hi. lia.
Qed.

Lemma elem_of_valid_indexes_bounds (files : list gist_info) (z : Z) :
  z ∈ index_in files <$> files → (0 ≤ z < Z.of_nat (length files))%Z.
Proof.
  intros (f & -> & Hf)%list_elem_of_fmap. by apply index_in_bounds.
Qed.

(** With pairwise different candidates, every position is accepted. *)
Lemma elem_of_valid_indexes_NoDup (files : list gist_info) (z : Z) :
  NoDup files →
  (0 ≤ z < Z.of_nat (length files))%Z → z ∈ index_in files <$> files.
Proof.
  intros Hnodup Hz.
  destruct (lookup_lt_is_Some_2 files (Z.to_nat z)) as [f Hf]; [lia|].
  apply list_elem_of_fmap. exists f. split.
  - unfold index_in. rewrite (list_index_NoDup _ _ _ Hnodup Hf). simpl. lia.
  - by eapply list_elem_of_lookup_2.
Qed.

(** The loop that prints the candidates. *)
Lemma list_options_run (todo files : list gist_info) (acc : list Z) (w : world) :
  (∀ f, f ∈ todo → f ∈ files) →
  list_options todo files acc w
  = (Return (acc ++ (index_in files <$> todo)),
     with_console (console w ++ (option_line files <$> todo)) w).
Proof.
  revert acc w. induction todo as [|f todo IH]; intros acc w Hsub; simpl.
  - run_monad. rewrite !app_nil_r. by destruct w.
  - destruct (list_index_elem_of files f) as [i Hi];
      [apply Hsub, list_elem_of_here|].
    assert (option_line files f
            = Print (indent ("[" +:+ pretty (Z.of_nat i + 1)%Z +:+ "] "
                             +:+ fmt (gi_description f)) 2)) as Hline
      by (unfold option_line, index_in; by rewrite Hi).
    assert (index_in files f = Z.of_nat i) as Hidx
      by (unfold index_in; by rewrite Hi).
    rewrite Hi. run_monad. unfold output at 1. simpl.
    rewrite IH by (intros f' Hf'; by apply Hsub, list_elem_of_further).
    rewrite Hline, Hidx. unfold with_console. simpl. by rewrite <- !app_assoc.
Qed.

End Locator.

Section SelectFile.
Context `{Runtime}.
Variables (self : Gist) (files : list gist_info).
Hypothesis ask_first : assume_yes self = false.
Hypothesis several : 1 < length files.

(** A refused answer costs one level of recursion and starts over. *)
Lemma select_file_refuses (depth : nat) (w : world) (line : string) (rest : list string) :
  stdin w = line :: rest →
  (∀ k, py_int line = Return k → (k - 1)%Z ∉ index_in files <$> files) →
  select_file (S depth) self files w
  = select_file depth self files
      (with_stdin rest (with_console (console w ++ refused_round self files line) w)).
Proof.
  intros Hin Hrefused.
  destruct files as [|first others] eqn:Hfiles; [simpl in several; lia|].
  rewrite <- Hfiles in *.
  assert (select_file (S depth) self files w
          = (if bool_decide (length files = 1) || assume_yes self
             then mret (Some first)
             else
               output ("Download " +:+ file_name self +:+ " from which Gist?");;
               valid_indexes ← list_options files files [];
               answer ← attempt any_exception
                          (line ← ask "Type the number: ";
                           n ← lift (py_int line);
                           mret (n - 1)%Z);
               match answer with
               | inl _ =>
                   output "Please type a number.";;
                   select_file depth self files
               | inr gist_index =>
                   if negb (bool_decide (gist_index ∈ valid_indexes)) then
                     output "Invalid number, please try again.";;
                     select_file depth self files
                   else
                     match list_getitem files gist_index with
                     | None => raise IndexError
                     | Some selected =>
                         output ("Using `" +:+ fmt (gi_description selected)
                                 +:+ "` Gist…");;
                         mret (Some selected)
                     end
               end) w) as -> by (rewrite Hfiles; reflexivity).
  rewrite ask_first, bool_decide_eq_false_2 by lia. simpl.
  run_monad. unfold output at 1. simpl.
  rewrite list_options_run by done. simpl.
  unfold attempt, ask. simpl. rewrite Hin.
  unfold refused_round, complaint, menu.
  destruct (py_int line) as [k|e] eqn:Hint; simpl.
  - rewrite bool_decide_eq_false_2 by (by apply Hrefused). simpl.
    unfold output. simpl. f_equal. unfold with_stdin, with_console. simpl.
    f_equal. by rewrite <- !app_assoc.
  - unfold output. simpl. f_equal. unfold with_stdin, with_console. simpl.
    f_equal. by rewrite <- !app_assoc.
Qed.

(** An accepted answer ends the dialogue with the candidate at that
    position. *)
Lemma select_file_accepts (depth : nat) (w : world) (line : string) (rest : list string)
    (k : Z) (selected : gist_info) :
  stdin w = line :: rest →
  py_int line = Return k →
  (k - 1)%Z ∈ index_in files <$> files →
  list_getitem files (k - 1) = Some selected →
  select_file depth self files w
  = (Return (Some selected),
     with_stdin rest
       (with_console
          (console w ++ menu self files
           ++ [Prompt "  Type the number: ";
               Print ("  Using `" +:+ fmt (gi_description selected) +:+ "` Gist…")]) w)).
Proof.
  intros Hin Hint Hvalid Hget.
  destruct files as [|first others] eqn:Hfiles; [simpl in several; lia|].
  rewrite <- Hfiles in *.
  assert (select_file depth self files w
          = (if bool_decide (length files = 1) || assume_yes self
             then mret (Some first)
             else
               output ("Download " +:+ file_name self +:+ " from which Gist?");;
               valid_indexes ← list_options files files [];
               answer ← attempt any_exception
                          (line ← ask "Type the number: ";
                           n ← lift (py_int line);
                           mret (n - 1)%Z);
               match answer with
               | inl _ =>
                   output "Please type a number.";;
                   match depth with
                   | O => raise RecursionError
                   | S depth' => select_file depth' self files
                   end
               | inr gist_index =>
                   if negb (bool_decide (gist_index ∈ valid_indexes)) then
                     output "Invalid number, please try again.";;
                     match depth with
                     | O => raise RecursionError
                     | S depth' => select_file depth' self files
                     end
                   else
                     match list_getitem files gist_index with
                     | None => raise IndexError
                     | Some selected =>
                         output ("Using `" +:+ fmt (gi_description selected)
                                 +:+ "` Gist…");;
                         mret (Some selected)
                     end
               end) w) as -> by (rewrite Hfiles; destruct depth; reflexivity).
  rewrite ask_first, bool_decide_eq_false_2 by lia. simpl.
  run_monad. unfold output at 1. simpl.
  rewrite list_options_run by done. simpl.
  unfold attempt, ask. simpl. rewrite Hin, Hint. simpl.
  rewrite bool_decide_eq_true_2 by done. simpl. rewrite Hget.
  unfold output, menu. simpl. f_equal. unfold with_stdin, with_console. simpl.
  f_equal. by rewrite <- !app_assoc.
Qed.

(** When the budget is used up, the next refused answer ends the run. *)
Lemma select_file_exhausted (w : world) (line : string) (rest : list string) :
  stdin w = line :: rest →
  (∀ k, py_int line = Return k → (k - 1)%Z ∉ index_in files <$> files) →
  (select_file 0 self files w).1 = Raise RecursionError.
Proof.
  intros Hin Hrefused.
  destruct files as [|first others] eqn:Hfiles; [simpl in several; lia|].
  rewrite <- Hfiles in *.
  assert (select_file 0 self files w
          = (if bool_decide (length files = 1) || assume_yes self
             then mret (Some first)
             else
               output ("Download " +:+ file_name self +:+ " from which Gist?");;
               valid_indexes ← list_options files files [];
               answer ← attempt any_exception
                          (line ← ask "Type the number: ";
                           n ← lift (py_int line);
                           mret (n - 1)%Z);
               match answer with
               | inl _ =>
                   output "Please type a number.";;
                   raise RecursionError
               | inr gist_index =>
                   if negb (bool_decide (gist_index ∈ valid_indexes)) then
                     output "Invalid number, please try again.";;
                     raise RecursionError
                   else
                     match list_getitem files gist_index with
                     | None => raise IndexError
                     | Some selected =>
                         output ("Using `" +:+ fmt (gi_description selected)
                                 +:+ "` Gist…");;
                         mret (Some selected)
                     end
               end) w) as -> by (rewrite Hfiles; reflexivity).
  rewrite ask_first, bool_decide_eq_false_2 by lia. simpl.
  run_monad. unfold output at 1. simpl.
  rewrite list_options_run by done. simpl.
  unfold attempt, ask. simpl. rewrite Hin.
  destruct (py_int line) as [k|e] eqn:Hint; simpl; [|done].
  by rewrite bool_decide_eq_false_2 by (by apply Hrefused).
Qed.

End SelectFile.

Section Resolution.
Context `{Runtime}.

(** C9. With several candidates, taken from different gists (their ids
    differ), and auto-select off:
    after any number of answers that are not numbers or are numbers outside
    [1..N], each of which is answered by the menu again, a prompt and a
    complaint, the answer [k] in [1..N] ends the dialogue with the [k]-th
    candidate and a line that announces its description.  The code sets no
    limit on the retries; each one nests a call, so the interpreter's
    budget [depth] has to cover them. *)
Theorem select_file_reprompts (self : Gist) (files : list gist_info)
    (bad : list string) (answer : string) (rest : list string) (k : Z)
    (depth : nat) (w : world) :
  assume_yes self = false →
  1 < length files →
  NoDup (gi_id <$> files) →
  Forall (refused (length files)) bad →
  py_int answer = Return k →
  (1 ≤ k ≤ Z.of_nat (length files))%Z →
  length bad ≤ depth →
  stdin w = bad ++ answer :: rest →
  ∃ selected,
    files !! Z.to_nat (k - 1) = Some selected
    ∧ select_file depth self files w
      = (Return (Some selected),
         with_stdin rest
           (with_console
              (console w ++ concat (refused_round self files <$> bad)
               ++ menu self files
               ++ [Prompt "  Type the number: ";
                   Print ("  Using `" +:+ fmt (gi_description selected) +:+ "` Gist…")])
              w)).
Proof.
  intros Hask Hmany Hnodup Hbad Hint Hk Hdepth Hin.
  apply NoDup_fmap_1 in Hnodup.
  destruct (lookup_lt_is_Some_2 files (Z.to_nat (k - 1))) as [selected Hsel]; [lia|].
  exists selected. split; [done|].
  revert depth w Hdepth Hin. induction Hbad as [|line bad Hline Hbad IH]; intros depth w Hdepth Hin.
  - simpl in *. rewrite (select_file_accepts self files Hask Hmany depth w answer rest k selected);
      try done.
    + apply elem_of_valid_indexes_NoDup; [done|lia].
    + unfold list_getitem. by rewrite (proj2 (Z.ltb_ge _ _)) by lia.
  - destruct depth as [|depth]; [simpl in Hdepth; lia|].
    rewrite (select_file_refuses self files Hask Hmany depth w line (bad ++ answer :: rest));
      [|done|].
    + rewrite IH; [|simpl in Hdepth; lia|done].
      f_equal. unfold with_stdin, with_console. simpl.
      f_equal. unfold refused_round, menu. simpl.
      repeat (rewrite <- app_assoc; simpl). reflexivity.
    + intros k' Hk' Hvalid. apply elem_of_valid_indexes_bounds in Hvalid.
      apply (Hline k' Hk'). lia.
Qed.

(** C6. When no gist of the listing has the file, [load_gist_info]
    reports it in a line with the file name and the user name and returns
    [False]; [run_getgist] then returns without calling [save], and the
    files are what they were before the run. *)
Theorem no_match_no_write (w w0 w1 : world) (self : Gist) (listing : list gist) :
  config (MkGist None "" "" false None "" "" None) "" "" false w = (Return self, w0) →
  query_api self w0 = (Return listing, w1) →
  (∀ g, g ∈ listing → file_name self ∉ dom (g_files g)) →
  load_gist_info self w0
  = (Return None, with_console (console w1 ++ [not_found_report self]) w1)
  ∧ run_getgist w
    = (Return tt, with_console (console w1 ++ [not_found_report self]) w1)
  ∧ fs (run_getgist w).2 = fs w.
Proof.
  intros Hconfig Hquery Hnone.
  assert (load_gist_info self w0
          = (Return None, with_console (console w1 ++ [not_found_report self]) w1))
    as Hload.
  { unfold load_gist_info, filter_gists. run_monad. rewrite Hquery.
    rewrite filter_loop_no_match
      by (intros g Hg; by apply not_elem_of_dom, Hnone). reflexivity. }
  assert (run_getgist w
          = (Return tt, with_console (console w1 ++ [not_found_report self]) w1))
    as Hrun.
  { unfold run_getgist, Gist_init. run_monad. rewrite Hconfig, Hload. reflexivity. }
  split_and!; [done|done|].
  rewrite Hrun. simpl.
  pose proof (preserves_query_api fs fs_print (λ _ _, eq_refl) self w0) as Hq.
  pose proof (preserves_config fs fs_print (λ _ _, eq_refl)
                (MkGist None "" "" false None "" "" None) "" "" false w) as Hc.
  rewrite Hquery in Hq. rewrite Hconfig in Hc. simpl in *. congruence.
Qed.

End Resolution.

(** ** Local reconciler *)

Section Reconciler.
Context `{Runtime}.

Lemma save_parts (self : Gist) (w : world) :
  save self w
  = match save_existing self w with
    | (Return _, w1) => save_new self w1
    | (Raise e, w1) => (Raise e, w1)
    end.
Proof.
  unfold save, save_existing, save_new. run_monad.
  unfold os_path_exists. simpl.
  destruct (bool_decide (is_Some (fs w !! local_path self))); reflexivity.
Qed.

(** [save_new] opens the file before it fetches: what it leaves at the
    path is the fetched text, or nothing at all when the fetch raised. *)
Lemma save_new_run (self : Gist) (w : world) :
  ∃ w2,
    fs w2 = <[local_path self := ""]> (fs w)
    ∧ stdin w2 = stdin w ∧ prompts w2 = prompts w
    ∧ ((∃ e, curl self (raw_url self) None
               (with_fs (<[local_path self := ""]> (fs w)) w) = (Raise e, w2)
             ∧ save_new self w = (Raise e, w2))
       ∨ (∃ contents,
            curl self (raw_url self) None
              (with_fs (<[local_path self := ""]> (fs w)) w) = (Return contents, w2)
            ∧ save_new self w
              = (Return tt,
                 with_console
                   (console w2 ++
                      [Print ("  Saving new " +:+ file_name self +:+ " …");
                       Print ("  Saved as " +:+ abspath (local_path self));
                       Print "  Done!"])
                   (with_fs (<[local_path self := contents]> (fs w)) w2)))).
Proof.
  set (w1 := with_fs (<[local_path self := ""]> (fs w)) w).
  pose proof (preserves_curl fs fs_print (λ _ _, eq_refl) self (raw_url self) None w1) as Hfs.
  pose proof (preserves_curl stdin stdin_print (λ _ _, eq_refl) self (raw_url self) None w1)
    as Hin.
  pose proof (preserves_curl prompts prompts_print (λ _ _, eq_refl) self (raw_url self) None w1)
    as Hpr.
  destruct (curl self (raw_url self) None w1) as [[contents|e] w2] eqn:Hcurl;
    simpl in Hfs, Hin, Hpr; exists w2; (split_and!; [done..|]).
  - right. exists contents. split; [done|].
    unfold save_new. run_monad. unfold open_w at 1. fold w1. rewrite Hcurl.
    unfold output, file_write. simpl. rewrite Hfs. simpl.
    rewrite lookup_insert_eq, insert_insert_eq. simpl.
    unfold with_console, with_fs. simpl. by rewrite <- !app_assoc.
  - left. exists e. split; [done|].
    unfold save_new. run_monad. unfold open_w at 1. fold w1. by rewrite Hcurl.
Qed.

(** C3 (the code departs from it).  With no file at the target path and a
    fetch that fails with an [HTTPError], [save] has no guard for the [""]
    it gets from [curl]: it creates the file, writes nothing into it and
    reports it as saved. *)
Theorem save_creates_empty_file_on_failed_fetch (self : Gist) (w : world) :
  fs w !! local_path self = None →
  (∀ dict, ∃ code, urlopen (raw_url self) dict = Raise (HTTPError code)) →
  ∃ w',
    save self w = (Return tt, w')
    ∧ fs w' = <[local_path self := ""]> (fs w)
    ∧ console w'
      = console w ++
          [Print ("  Fetching " +:+ raw_url self +:+ " …");
           Print ("  [Error] Couldn't reach GitHub at " +:+ raw_url self +:+ ".");
           Print ("  Saving new " +:+ file_name self +:+ " …");
           Print ("  Saved as " +:+ abspath (local_path self));
           Print "  Done!"].
Proof.
  intros Habsent Hnet. rewrite save_parts.
  unfold save_existing. run_monad. unfold os_path_exists. simpl.
  rewrite bool_decide_eq_false_2 by (rewrite Habsent; by intros [? ?]).
  destruct (save_new_run self w) as (w2 & Hfs & _ & _ & [(e & Hcurl & _)|(c & Hcurl & Hrun)]).
  - destruct (curl_recovers_HTTPError self (raw_url self) None
                (with_fs (<[local_path self := ""]> (fs w)) w) Hnet)
      as (w' & Hcurl' & _). congruence.
  - destruct (curl_recovers_HTTPError self (raw_url self) None
                (with_fs (<[local_path self := ""]> (fs w)) w) Hnet)
      as (w' & Hcurl' & Hconsole & _).
    rewrite Hcurl in Hcurl'. injection Hcurl' as -> ->.
    eexists. split_and!; [exact Hrun|done|].
    simpl. rewrite Hconsole. simpl. by rewrite <- !app_assoc.
Qed.

(** C7. If the fetch of the raw URL returns the text [C] and [save]
    completes, the file at the target path holds exactly [C]. *)
Theorem save_round_trip (self : Gist) (w w' : world) (C : string) :
  (∀ w0, (curl self (raw_url self) None w0).1 = Return C) →
  save self w = (Return tt, w') →
  fs w' !! local_path self = Some C.
Proof.
  intros Hfetch Hsave. rewrite save_parts in Hsave.
  destruct (save_existing self w) as [[[]|e] w1]; [|discriminate].
  destruct (save_new_run self w1) as (w2 & _ & _ & _ & [(e & _ & Hrun)|(c & Hcurl & Hrun)]).
  - congruence.
  - specialize (Hfetch (with_fs (<[local_path self := ""]> (fs w1)) w1)).
    rewrite Hcurl in Hfetch. simpl in Hfetch. injection Hfetch as ->.
    rewrite Hrun in Hsave. injection Hsave as <-. simpl. apply lookup_insert_eq.
Qed.

(** With no file in the way and a fetch that succeeds, [save] completes. *)
Lemma save_completes (self : Gist) (w : world) (C : string) :
  fs w !! local_path self = None →
  (∀ dict, urlopen (raw_url self) dict = Return (Response 200 (Return C))) →
  ∃ w', save self w = (Return tt, w') ∧ fs w' = <[local_path self := C]> (fs w).
Proof.
  intros Habsent Hnet. rewrite save_parts.
  unfold save_existing. run_monad. unfold os_path_exists. simpl.
  rewrite bool_decide_eq_false_2 by (rewrite Habsent; by intros [? ?]).
  destruct (curl_fetches self (raw_url self) None
              (with_fs (<[local_path self := ""]> (fs w)) w) (Return C) Hnet)
    as (w2 & Hcurl & _).
  destruct (save_new_run self w) as (w2' & _ & _ & _ & [(e & Hcurl' & _)|(c & Hcurl' & Hrun)]);
    [congruence|].
  rewrite Hcurl in Hcurl'. injection Hcurl' as <- <-.
  eexists. split; [exact Hrun|done].
Qed.

(** What [save_new] does to the files, whether it completes or not. *)
Lemma save_new_frame (self : Gist) (w : world) :
  stdin (save_new self w).2 = stdin w
  ∧ prompts (save_new self w).2 = prompts w
  ∧ ∃ text, fs (save_new self w).2 = <[local_path self := text]> (fs w).
Proof.
  destruct (save_new_run self w)
    as (w2 & Hfs & Hin & Hpr & [(e & _ & ->)|(c & _ & ->)]); simpl.
  - split_and!; [done|done|]. by exists "".
  - split_and!; [done| |by exists c].
    rewrite <- Hpr. unfold prompts. simpl. rewrite filter_app, length_app. simpl. lia.
Qed.

(** C10. With a file in the way and auto-select off, [save] asks once and
    reads one line: when the reply in lower case is [y] the file is removed
    and no backup is made (the files differ from before at the target path
    only); on any other reply the file is moved to the first free backup
    path.  Either way the new file is then written, and no further prompt
    is written or line read. *)
Theorem save_asks_once (self : Gist) (w : world) (reply : string)
    (rest : list string) (old : string) :
  configured self →
  assume_yes self = false →
  fs w !! local_path self = Some old →
  stdin w = reply :: rest →
  stdin (save self w).2 = rest
  ∧ prompts (save self w).2 = S (prompts w)
  ∧ (lower reply = "y" →
     save_existing self w
     = (Return tt,
        with_fs (delete (local_path self) (fs w))
          (with_stdin rest
             (with_console
                (console w ++
                   [Prompt ("  Delete existing " +:+ file_name self +:+ " ? (y/n) ");
                    Print ("  Deleting existing " +:+ file_name self +:+ " …")]) w)))
     ∧ ∃ text, fs (save self w).2 = <[local_path self := text]> (fs w))
  ∧ (lower reply ≠ "y" →
     ∃ n,
       first_free (fs w) (local_dir self) (file_name self) n
       ∧ save_existing self w
         = (Return tt,
            with_fs (<[backup_path (local_dir self) (file_name self) n := old]>
                       (delete (local_path self) (fs w)))
              (with_stdin rest
                 (with_console
                    (console w ++
                       [Prompt ("  Delete existing " +:+ file_name self +:+ " ? (y/n) ");
                        Print ("  Moving existing " +:+ file_name self +:+ " to "
                               +:+ backup_name (file_name self) n +:+ "…")]) w)))
       ∧ ∃ text,
           fs (save self w).2
           = <[local_path self := text]>
               (<[backup_path (local_dir self) (file_name self) n := old]> (fs w))).
Proof.
  intros Hconf Hask Hold Hin.
  set (w1 := with_stdin rest
               (with_console
                  (console w ++
                     [Prompt ("  Delete existing " +:+ file_name self +:+ " ? (y/n) ")]) w)).
  assert (save_existing self w
          = (if String.eqb (lower reply) "y" then
               output ("Deleting existing " +:+ file_name self +:+ " …");;
               os_remove (local_path self)
             else backup self) w1) as Hexisting.
  { unfold save_existing. run_monad. unfold os_path_exists. simpl.
    rewrite bool_decide_eq_true_2 by (rewrite Hold; by eexists).
    rewrite Hask. unfold ask. simpl. by rewrite Hin. }
  assert (prompts w1 = S (prompts w)) as Hprompts.
  { unfold prompts, w1. simpl. rewrite filter_app, length_app. simpl. lia. }
  destruct (String.eqb (lower reply) "y") eqn:Hreply.
  - apply String.eqb_eq in Hreply.
    assert (save_existing self w
            = (Return tt,
               with_fs (delete (local_path self) (fs w))
                 (with_stdin rest
                    (with_console
                       (console w ++
                          [Prompt ("  Delete existing " +:+ file_name self +:+ " ? (y/n) ");
                           Print ("  Deleting existing " +:+ file_name self +:+ " …")]) w))))
      as Hrun.
    { rewrite Hexisting. run_monad. unfold output, os_remove. simpl. rewrite Hold.
      unfold with_fs, with_stdin, with_console. simpl. by rewrite <- !app_assoc. }
    rewrite save_parts, Hrun.
    match goal with |- context [save_new self ?w2] =>
      destruct (save_new_frame self w2) as (Hs & Hp & text & Hf) end.
    split_and!.
    + by rewrite Hs.
    + rewrite Hp. unfold prompts. simpl.
      rewrite filter_app, length_app. simpl. unfold prompts. lia.
    + intros _. split; [done|]. exists text. rewrite Hf. simpl.
      by rewrite insert_delete_eq.
    + intros Hne. by destruct Hne.
  - apply String.eqb_neq in Hreply.
    assert (fs w1 !! path_join (local_dir self) (file_name self) = Some old) as Hold1
      by (rewrite <- Hconf; exact Hold).
    destruct (backup_run self w1 old Hold1) as (n & Hn & Hbackup).
    assert (save_existing self w
            = (Return tt,
               with_fs (<[backup_path (local_dir self) (file_name self) n := old]>
                          (delete (local_path self) (fs w)))
                 (with_stdin rest
                    (with_console
                       (console w ++
                          [Prompt ("  Delete existing " +:+ file_name self +:+ " ? (y/n) ");
                           Print ("  Moving existing " +:+ file_name self +:+ " to "
                                  +:+ backup_name (file_name self) n +:+ "…")]) w))))
      as Hrun.
    { rewrite Hexisting, Hbackup. unfold configured in Hconf. rewrite <- Hconf.
      unfold with_fs, with_stdin, with_console. simpl. by rewrite <- !app_assoc. }
    rewrite save_parts, Hrun.
    match goal with |- context [save_new self ?w2] =>
      destruct (save_new_frame self w2) as (Hs & Hp & text & Hf) end.
    split_and!.
    + by rewrite Hs.
    + rewrite Hp. unfold prompts. simpl.
      rewrite filter_app, length_app. simpl. unfold prompts. lia.
    + intros Hy. by destruct Hreply.
    + intros _. exists n. split_and!; [done|done|].
      exists text. rewrite Hf. simpl.
      apply map_eq. intros p.
      destruct (decide (p = local_path self)) as [->|Hp'].
      * by rewrite !lookup_insert_eq.
      * rewrite !(lookup_insert_ne _ (local_path self)) by done.
        destruct (decide (p = backup_path (local_dir self) (file_name self) n)) as [->|Hp''].
        -- by rewrite !lookup_insert_eq.
        -- rewrite !lookup_insert_ne by done. by rewrite lookup_delete_ne.
Qed.

End Reconciler.

(** * The theorems at work on the simulated runtime *)

(** The host of [offline.txt] does not answer: the [URLError] leaves [curl]. *)
Lemma curl_propagates_other_errors_witness :
  is_HTTPError URLError = false
  ∧ ∃ w',
      @curl (Sim.anonymous "offline.txt")
        (Sim.alice "offline.txt" false (Some Sim.offline))
        Sim.raw_offline None (Sim.start ∅ [])
      = (Raise URLError, w')
      ∧ console w' = [Print "  Fetching https://gist.invalid/alice/dd44/raw/offline.txt …"].
Proof.
  split; [reflexivity|].
  apply (@curl_propagates_other_errors (Sim.anonymous "offline.txt")).
  - reflexivity.
  - intros dict. reflexivity.
Defined.

(** A token the server refuses (status 401): [authenticated] raises. *)
Lemma authenticated_raises_on_failed_fetch_witness :
  @authenticated (Sim.runtime (Some "stale") (CliArgs "alice" "notes.txt" false))
    (MkGist None "alice" "notes.txt" false None "" "" None) (Sim.start ∅ [])
  = (Raise ValueError,
     with_console
       [Print "  Fetching https://api.github.com/user …";
        Print "  [Error] Couldn't reach GitHub at https://api.github.com/user."]
       (Sim.start ∅ [])).
Proof.
  apply (@authenticated_raises_on_failed_fetch
           (Sim.runtime (Some "stale") (CliArgs "alice" "notes.txt" false))
           (MkGist None "alice" "notes.txt" false None "" "" None) (Sim.start ∅ [])
           "stale" 401 ValueError); reflexivity.
Defined.

(** The raw URL of [gone.txt] answers 404: an empty [gone.txt] is left. *)
Lemma save_creates_empty_file_on_failed_fetch_witness :
  ∃ w',
    @save (Sim.anonymous "gone.txt") (Sim.alice "gone.txt" false (Some Sim.gone))
      (Sim.start ∅ [])
    = (Return tt, w')
    ∧ fs w' = {[ "/home/alice/gone.txt" := "" ]}
    ∧ last (console w') = Some (Print "  Done!").
Proof.
  destruct (@save_creates_empty_file_on_failed_fetch (Sim.anonymous "gone.txt")
              (Sim.alice "gone.txt" false (Some Sim.gone)) (Sim.start ∅ []))
    as (w' & Hrun & Hfs & Hconsole).
  - reflexivity.
  - intros dict. exists 404%Z. reflexivity.
  - exists w'. split_and!; [exact Hrun|exact Hfs|].
    rewrite Hconsole. reflexivity.
Defined.

(** Three backups of [notes.txt] in a row in a clean directory. *)
Lemma backup_first_free_name_witness :
  configured (Sim.alice "notes.txt" false (Some Sim.notes_v1))
  ∧ ∃ w',
      backup_rounds (Sim.alice "notes.txt" false (Some Sim.notes_v1))
        ["one"; "two"; "three"] (Sim.start ∅ [])
      = (Return tt, w')
      ∧ fs w' !! "/home/alice/notes.txt.bkp" = Some "one"
      ∧ fs w' !! "/home/alice/notes.txt.bkp1" = Some "two"
      ∧ fs w' !! "/home/alice/notes.txt.bkp2" = Some "three"
      ∧ fs w' !! "/home/alice/notes.txt.bkp3" = None.
Proof.
  split; [reflexivity|].
  destruct (backup_first_free_name (Sim.alice "notes.txt" false (Some Sim.notes_v1)) eq_refl)
    as (_ & Hrounds & _).
  destruct (Hrounds (Sim.start ∅ []) ["one"; "two"; "three"])
    as (w' & Hrun & Hfilled & Hfree & _).
  - intros n. apply lookup_empty.
  - exists w'. split_and!.
    + exact Hrun.
    + exact (Hfilled 0 "one" eq_refl).
    + exact (Hfilled 1 "two" eq_refl).
    + exact (Hfilled 2 "three" eq_refl).
    + apply (Hfree 3). simpl. lia.
Defined.

(** alice has no gist with [nothing.txt]: the run ends and [readme.md] is
    all there is, as before. *)
Lemma no_match_no_write_witness :
  fs (@run_getgist (Sim.anonymous "nothing.txt")
        (Sim.start {[ "/home/alice/readme.md" := "keep" ]} [])).2
  = {[ "/home/alice/readme.md" := "keep" ]}.
Proof.
  edestruct (@no_match_no_write (Sim.anonymous "nothing.txt")
               (Sim.start {[ "/home/alice/readme.md" := "keep" ]} []))
    as (_ & _ & Hfs); [| | |exact Hfs].
  - vm_compute. reflexivity.
  - vm_compute. reflexivity.
  - intros g Hg. apply not_elem_of_dom.
    repeat (apply elem_of_cons in Hg as [->|Hg]; [reflexivity|]).
    by apply elem_of_nil in Hg.
Defined.

(** [todo.md] is fetched and saved as it was served. *)
Lemma save_round_trip_witness :
  ∃ w',
    @save (Sim.anonymous "todo.md") (Sim.alice "todo.md" false (Some Sim.todo))
      (Sim.start ∅ [])
    = (Return tt, w')
    ∧ fs w' !! "/home/alice/todo.md" = Some "buy milk".
Proof.
  eexists. split; [vm_compute; reflexivity|].
  apply (@save_round_trip (Sim.anonymous "todo.md")
           (Sim.alice "todo.md" false (Some Sim.todo)) (Sim.start ∅ [])).
  - intros w0. reflexivity.
  - vm_compute. reflexivity.
Defined.

(** The second gist of alice's listing has [notes.txt]: it gives one match,
    between those of the gists before it and after it. *)
Lemma filter_gists_spec_witness :
  ∃ own,
    @filter_gists (Sim.anonymous "notes.txt") (Sim.alice "notes.txt" false None)
      (Sim.start ∅ [])
    = (Return ([Sim.notes_v1] ++ own ++ []),
       with_console [Print "  Fetching https://api.github.com/users/alice/gists …"]
         (Sim.start ∅ []))
    ∧ own = [Sim.notes_v2].
Proof.
  destruct (@filter_gists_spec (Sim.anonymous "notes.txt")
              (Sim.alice "notes.txt" false None) (Sim.start ∅ [])
              (with_console [Print "  Fetching https://api.github.com/users/alice/gists …"]
                 (Sim.start ∅ []))
              (take 1 Sim.alice_gists) (drop 2 Sim.alice_gists)
              (MkGistDoc "bb22" (Some "v2")
                 (<[ "todo.md" := GistFile Sim.raw_todo ]>
                    {[ "notes.txt" := GistFile Sim.raw_v2 ]})))
    as (own & Hrun & Hin & _).
  - vm_compute. reflexivity.
  - exists own. destruct Hin as (file & Hfile & ->).
    + apply elem_of_dom. by eexists.
    + vm_compute in Hfile. injection Hfile as <-. split; [exact Hrun|reflexivity].
Defined.

(** Two candidates; the answers [x], [0] and [3] are refused, [2] is
    taken. *)
Lemma select_file_reprompts_witness :
  ∃ w',
    @select_file (Sim.anonymous "notes.txt") 1000
      (Sim.alice "notes.txt" false None) [Sim.notes_v1; Sim.notes_v2]
      (Sim.start ∅ ["x"; "0"; "3"; "2"; "y"])
    = (Return (Some Sim.notes_v2), w')
    ∧ stdin w' = ["y"]
    ∧ last (console w') = Some (Print "  Using `v2` Gist…").
Proof.
  destruct (@select_file_reprompts (Sim.anonymous "notes.txt")
              (Sim.alice "notes.txt" false None) [Sim.notes_v1; Sim.notes_v2]
              ["x"; "0"; "3"] "2" ["y"] 2 1000 (Sim.start ∅ ["x"; "0"; "3"; "2"; "y"]))
    as (selected & Hsel & Hrun).
  - reflexivity.
  - simpl. lia.
  - apply (bool_decide_unpack _). vm_compute. exact I.
  - apply Forall_forall. intros line Hline k Hk.
    repeat (apply elem_of_cons in Hline as [->|Hline];
            [vm_compute in Hk; first [discriminate Hk | injection Hk as <-; simpl; lia]|]).
    by apply elem_of_nil in Hline.
  - reflexivity.
  - simpl. lia.
  - simpl. lia.
  - reflexivity.
  - injection Hsel as <-. eexists. split_and!; [exact Hrun|reflexivity|reflexivity].
Defined.

(** Where the statement of C9 without its two conditions fails.  With the
    usual budget of 1000 nested calls, 1001 answers that are not numbers
    followed by the number 2 end resolution with [RecursionError]; and
    with the same candidate twice, its second number (the only answer
    given) is refused and the dialogue ends the same way. *)
Lemma select_file_reprompts_counterexample :
  (@load_gist_info (Sim.anonymous "notes.txt") (Sim.alice "notes.txt" false None)
     (Sim.start ∅ (replicate 1001 "x" ++ ["2"]))).1
  = Raise RecursionError
  ∧ (@select_file (Sim.anonymous "notes.txt") 1000 (Sim.alice "notes.txt" false None)
       [Sim.notes_v1; Sim.notes_v1] (Sim.start ∅ ["2"])).1
    = Raise RecursionError.
Proof. split; vm_compute; reflexivity. Qed.

(** [todo.md] is there and the user answers [n]: it becomes
    [todo.md.bkp], and the new text is written. *)
Lemma save_asks_once_witness :
  stdin (@save (Sim.anonymous "todo.md") (Sim.alice "todo.md" false (Some Sim.todo))
           (Sim.start {[ "/home/alice/todo.md" := "old list" ]} ["n"; "later"])).2
  = ["later"]
  ∧ prompts (@save (Sim.anonymous "todo.md") (Sim.alice "todo.md" false (Some Sim.todo))
               (Sim.start {[ "/home/alice/todo.md" := "old list" ]} ["n"; "later"])).2
    = 1.
Proof.
  destruct (@save_asks_once (Sim.anonymous "todo.md")
              (Sim.alice "todo.md" false (Some Sim.todo))
              (Sim.start {[ "/home/alice/todo.md" := "old list" ]} ["n"; "later"])
              "n" ["later"] "old list")
    as (Hstdin & Hprompts & _).
  - reflexivity.
  - reflexivity.
  - reflexivity.
  - reflexivity.
  - split; [exact Hstdin|exact Hprompts].
Defined.

(** The same run, end to end. *)
Example save_backup_run :
  fs (@save (Sim.anonymous "todo.md") (Sim.alice "todo.md" false (Some Sim.todo))
        (Sim.start {[ "/home/alice/todo.md" := "old list" ]} ["n"])).2
  = <[ "/home/alice/todo.md" := "buy milk" ]>
      {[ "/home/alice/todo.md.bkp" := "old list" ]}.
Proof. vm_compute. reflexivity. Qed.

(** The answer [Y] deletes instead. *)
Example save_delete_run :
  fs (@save (Sim.anonymous "todo.md") (Sim.alice "todo.md" false (Some Sim.todo))
        (Sim.start {[ "/home/alice/todo.md" := "old list" ]} ["Y"])).2
  = {[ "/home/alice/todo.md" := "buy milk" ]}.
Proof. vm_compute. reflexivity. Qed.

(** A whole run: no token, two gists with [notes.txt], the second chosen
    after a refused answer. *)
Example run_getgist_notes :
  let w := @run_getgist (Sim.anonymous "notes.txt") (Sim.start ∅ ["two"; "2"]) in
  w.1 = Return tt
  ∧ fs w.2 = {[ "/home/alice/notes.txt" := "second draft" ]}
  ∧ stdin w.2 = [].
Proof. vm_compute. split_and!; reflexivity. Qed.

(** * Further properties of the code *)

(** ** What the run keeps *)

Section Keeps.
Context `{Runtime} (P : world → Prop).
Hypothesis P_print : ∀ message w,
  P w → P (with_console (console w ++ [Print (indent message 2)]) w).
Hypothesis P_prompt : ∀ message w,
  P w → P (with_console (console w ++ [Prompt (indent message 2)]) w).
Hypothesis P_stdin : ∀ lines w, P w → P (with_stdin lines w).
Hypothesis P_headers : ∀ dict w, P w → P (with_curl_headers dict w).

Lemma keeps_ret {A} (a : A) : keeps P (ret a).
Proof. by intros w. Qed.

Lemma keeps_raise {A} (e : exn) : keeps P (@raise A e).
Proof. by intros w. Qed.

Lemma keeps_lift {A} (o : outcome A) : keeps P (lift o).
Proof. by intros w. Qed.

Lemma keeps_bind {A B} (m : M A) (k : A → M B) :
  keeps P m → (∀ a, keeps P (k a)) → keeps P (bind m k).
Proof.
  intros Hm Hk w Hw. unfold bind. specialize (Hm w Hw).
  destruct (m w) as [[a|e] w1]; simpl in *; [|done].
  by apply Hk.
Qed.

Lemma keeps_attempt {A} (catches : exn → bool) (m : M A) :
  keeps P m → keeps P (attempt catches m).
Proof.
  intros Hm w Hw. unfold attempt. specialize (Hm w Hw).
  destruct (m w) as [[a|e] w1]; simpl in *; [done|].
  by destruct (catches e).
Qed.

Lemma keeps_output (message : string) : keeps P (output message).
Proof. intros w Hw. by apply P_print. Qed.

Lemma keeps_ask (message : string) : keeps P (ask message).
Proof.
  intros w Hw. unfold ask.
  destruct (stdin w) as [|line rest]; simpl.
  - by apply P_prompt.
  - by apply P_stdin, P_prompt.
Qed.

Lemma keeps_curl_prepare (self : Gist) (headers : option (gmap string string)) :
  keeps P (curl_prepare self headers).
Proof.
  intros w Hw. unfold curl_prepare.
  destruct (_ && _); [|done]. destruct headers; [done|]. by apply P_headers.
Qed.

(** One step of such a proof. *)
Ltac keeps_step :=
  match goal with
  | |- keeps _ (mbind _ _) => unfold mbind, M_bind
  | |- keeps _ (mret _) => apply keeps_ret
  | |- keeps _ (bind _ _) => apply keeps_bind; [|intros ?]
  | |- keeps _ (ret _) => apply keeps_ret
  | |- keeps _ (raise _) => apply keeps_raise
  | |- keeps _ (lift _) => apply keeps_lift
  | |- keeps _ (attempt _ _) => apply keeps_attempt
  | |- keeps _ (output _) => apply keeps_output
  | |- keeps _ (ask _) => apply keeps_ask
  | |- keeps _ (curl_prepare _ _) => apply keeps_curl_prepare
  | |- keeps _ (if ?b then _ else _) => destruct b
  | |- keeps _ (match ?x with _ => _ end) => destruct x
  end.

Lemma keeps_curl (self : Gist) (url : string) (headers : option (gmap string string)) :
  keeps P (curl self url headers).
Proof. unfold curl. repeat keeps_step. Qed.

Lemma keeps_authenticated (self : Gist) : keeps P (authenticated self).
Proof.
  unfold authenticated, get_token, validate_token.
  repeat (keeps_step || apply keeps_curl).
Qed.

Lemma keeps_config (self : Gist) (user0 file_name0 : string) (assume_yes0 : bool) :
  keeps P (config self user0 file_name0 assume_yes0).
Proof. unfold config. repeat (keeps_step || apply keeps_authenticated). Qed.

Lemma keeps_filter_gists (self : Gist) : keeps P (filter_gists self).
Proof.
  unfold filter_gists, query_api. repeat (keeps_step || apply keeps_curl).
Qed.

Lemma keeps_list_options (todo files : list gist_info) (valid_indexes : list Z) :
  keeps P (list_options todo files valid_indexes).
Proof.
  revert valid_indexes. induction todo as [|f todo IH]; intros valid_indexes; simpl.
  - apply keeps_ret.
  - repeat (keeps_step || apply IH).
Qed.

Lemma keeps_select_file (depth : nat) (self : Gist) (files : list gist_info) :
  keeps P (select_file depth self files).
Proof.
  induction depth as [|depth IH].
  - destruct files as [|first others]; [apply keeps_ret|].
    change (select_file 0 self (first :: others)) with
      (if bool_decide (length (first :: others) = 1) || assume_yes self
       then mret (Some first)
       else
         output ("Download " +:+ file_name self +:+ " from which Gist?");;
         valid_indexes ← list_options (first :: others) (first :: others) [];
         answer ← attempt any_exception
                    (line ← ask "Type the number: ";
                     n ← lift (py_int line);
                     mret (n - 1)%Z);
         match answer with
         | inl _ => output "Please type a number.";; raise RecursionError
         | inr gist_index =>
             if negb (bool_decide (gist_index ∈ valid_indexes)) then
               output "Invalid number, please try again.";; raise RecursionError
             else
               match list_getitem (first :: others) gist_index with
               | None => raise IndexError
               | Some selected =>
                   output ("Using `" +:+ fmt (gi_description selected) +:+ "` Gist…");;
                   mret (Some selected)
               end
         end).
    repeat (keeps_step || apply keeps_list_options).
  - destruct files as [|first others]; [apply keeps_ret|].
    change (select_file (S depth) self (first :: others)) with
      (if bool_decide (length (first :: others) = 1) || assume_yes self
       then mret (Some first)
       else
         output ("Download " +:+ file_name self +:+ " from which Gist?");;
         valid_indexes ← list_options (first :: others) (first :: others) [];
         answer ← attempt any_exception
                    (line ← ask "Type the number: ";
                     n ← lift (py_int line);
                     mret (n - 1)%Z);
         match answer with
         | inl _ =>
             output "Please type a number.";;
             select_file depth self (first :: others)
         | inr gist_index =>
             if negb (bool_decide (gist_index ∈ valid_indexes)) then
               output "Invalid number, please try again.";;
               select_file depth self (first :: others)
             else
               match list_getitem (first :: others) gist_index with
               | None => raise IndexError
               | Some selected =>
                   output ("Using `" +:+ fmt (gi_description selected) +:+ "` Gist…");;
                   mret (Some selected)
               end
         end).
    repeat (keeps_step || apply keeps_list_options || apply IH).
Qed.

Lemma keeps_load_gist_info (self : Gist) : keeps P (load_gist_info self).
Proof.
  unfold load_gist_info.
  repeat (keeps_step || apply keeps_filter_gists || apply keeps_select_file).
Qed.

Lemma keeps_Gist_init (user0 file_name0 : string) (assume_yes0 : bool) :
  keeps P (Gist_init user0 file_name0 assume_yes0).
Proof.
  unfold Gist_init.
  repeat (keeps_step || apply keeps_config || apply keeps_load_gist_info).
Qed.

Lemma keeps_get_user : keeps P get_user.
Proof. unfold get_user. repeat keeps_step. Qed.

Lemma keeps_MyGist_init (file_name0 : string) (assume_yes0 : bool) :
  keeps P (MyGist_init file_name0 assume_yes0).
Proof.
  unfold MyGist_init.
  repeat (keeps_step || apply keeps_get_user || apply keeps_config
          || apply keeps_load_gist_info).
Qed.

Hypothesis P_fs : ∀ files w, P w → P (with_fs files w).





End Keeps.

Section Invariants.
Context `{Runtime}.

(** X1. Resolution never writes: whatever [Gist.__init__] or
    [MyGist.__init__] does (authentication, listing, the dialogue) and
    however it ends, by return or by exception, the files are those from
    before. *)
Theorem resolution_keeps_files (user0 file_name0 : string) (assume_yes0 : bool)
    (w : world) :
  fs (Gist_init user0 file_name0 assume_yes0 w).2 = fs w
  ∧ fs (MyGist_init file_name0 assume_yes0 w).2 = fs w.
Proof.
  split.
  - by apply (keeps_Gist_init (λ w', fs w' = fs w)).
  - by apply (keeps_MyGist_init (λ w', fs w' = fs w)).
Qed.



End Invariants.

Section TransportMore.
Context `{Runtime}.

(** X3. The two failures [curl] recovers from.  An [HTTPError] of
    [urlopen], or an answer whose status is not 200, gives [""] after the
    progress line and one diagnostic; both diagnostics show the URL (the
    second one shows it in the place meant for the status, which is never
    printed).  Input and files are not touched. *)
Theorem curl_failure_returns_empty (self : Gist) (url : string)
    (headers : option (gmap string string)) (w : world) :
  ((∀ dict, ∃ code, urlopen url dict = Raise (HTTPError code)) →
   ∃ w',
     curl self url headers w = (Return "", w')
     ∧ console w'
       = console w ++ [Print ("  Fetching " +:+ url +:+ " …");
                       Print ("  [Error] Couldn't reach GitHub at " +:+ url +:+ ".")]
     ∧ stdin w' = stdin w ∧ fs w' = fs w)
  ∧ ((∀ dict, ∃ response,
        urlopen url dict = Return response ∧ getcode response ≠ 200%Z) →
     ∃ w',
       curl self url headers w = (Return "", w')
       ∧ console w'
         = console w ++ [Print ("  Fetching " +:+ url +:+ " …");
                         Print ("  [Error] HTTP Status " +:+ url +:+ ".")]
       ∧ stdin w' = stdin w ∧ fs w' = fs w).
Proof.
  split; intros Hnet.
  - by apply curl_recovers_HTTPError.
  - by apply curl_recovers_status.
Qed.

(** X4. With the caller's own header dict and no authenticated session,
    status 200 hands the caller whatever reading and decoding the body
    gives, a text (an empty one too) or the exception they raise, after the
    progress line alone. *)
Theorem curl_status_200 (self : Gist) (url : string) (dict : gmap string string)
    (w : world) (body : outcome string) :
  auth self ≠ Some true →
  urlopen url dict = Return (Response 200 body) →
  curl self url (Some dict) w
  = (body, with_console (console w ++ [Print ("  Fetching " +:+ url +:+ " …")]) w).
Proof.
  intros Hauth Hnet.
  rewrite (curl_unfold self url (Some dict) w w dict).
  - by rewrite Hnet.
  - unfold curl_prepare. by rewrite (bool_decide_eq_false_2 _ Hauth).
Qed.

Lemma curl_headers_after (self : Gist) (url : string)
    (headers : option (gmap string string)) (w w1 : world) (dict : gmap string string) :
  curl_prepare self headers w = (Return dict, w1) →
  curl_headers (curl self url headers w).2 = curl_headers w1.
Proof.
  intros Hprep. rewrite (curl_unfold _ _ _ _ _ _ Hprep).
  destruct (urlopen url dict) as [response|e]; simpl.
  - by destruct (getcode response =? 200)%Z.
  - by destruct (is_HTTPError e).
Qed.

(** X5. The default [headers=dict()] of [curl] is one dict for all calls.
    The first call of an authenticated object that leaves [headers] out
    writes its [Authorization] entry into that dict, and from then on every
    call that leaves [headers] out, by whatever object (an anonymous one,
    or one with another token), sends that same dict and entry. *)
Theorem curl_default_headers_stick (self : Gist) (url : string) (w : world) :
  auth self = Some true →
  curl_headers w !! "Authorization" = None →
  curl_headers (curl self url None w).2
  = <["Authorization" := "token " +:+ fmt (token self)]> (curl_headers w)
  ∧ ∀ other : Gist,
      curl_prepare other None (curl self url None w).2
      = (Return (<["Authorization" := "token " +:+ fmt (token self)]> (curl_headers w)),
         (curl self url None w).2).
Proof.
  intros Hauth Hfree.
  set (dict := <["Authorization" := "token " +:+ fmt (token self)]> (curl_headers w)).
  assert (curl_prepare self None w = (Return dict, with_curl_headers dict w)) as Hprep.
  { unfold curl_prepare. simpl.
    rewrite (bool_decide_eq_true_2 _ Hauth).
    rewrite bool_decide_eq_false_2 by (rewrite Hfree; by intros [? ?]). done. }
  assert (curl_headers (curl self url None w).2 = dict) as Hafter
    by (by rewrite (curl_headers_after _ _ _ _ _ _ Hprep)).
  split; [done|]. intros other. unfold curl_prepare. simpl. rewrite Hafter.
  rewrite (bool_decide_eq_true_2 (is_Some (dict !! "Authorization")))
    by (unfold dict; rewrite lookup_insert_eq; by eexists).
  by rewrite andb_false_r.
Qed.

End TransportMore.

Section AuthenticatorMore.
Context `{Runtime}.

(** [authenticated] changes nothing of the object but its token. *)
Lemma authenticated_fields (self self' : Gist) (ok : bool) (w w' : world) :
  authenticated self w = (Return (self', ok), w') →
  self' = set_token (getenv "GETGIST_TOKEN") self.
Proof.
  unfold authenticated, get_token. run_monad. intros Hrun.
  repeat case_match; simplify_eq; reflexivity.
Qed.

(** X6. [authenticated] answers [True] only when a token is set and the
    identity endpoint, asked with that token, returned a document whose
    login is the user; the last line then names the user. *)
Theorem authenticated_only_on_match (self self' : Gist) (w w' : world) :
  authenticated self w = (Return (self', true), w') →
  ∃ tok body doc w1,
    getenv "GETGIST_TOKEN" = Some tok
    ∧ truthy tok = true
    ∧ self' = set_token (Some tok) self
    ∧ curl (set_token (Some tok) self) (api_url +:+ "/user")
        (Some {["Authorization" := "token " +:+ tok]}) w
      = (Return body, w1)
    ∧ json_loads_user body = Return doc
    ∧ login doc = Some (user self)
    ∧ w' = with_console
             (console w1 ++ [Print ("  User `" +:+ user self +:+ "` authenticated.")]) w1.
Proof.
  unfold authenticated, get_token. run_monad. intros Hrun.
  destruct (getenv "GETGIST_TOKEN") as [tok|] eqn:Htok; simpl in Hrun;
    [|unfold validate_token in Hrun; simpl in Hrun; discriminate].
  destruct (truthy tok) eqn:Htruthy; simpl in Hrun.
  - unfold validate_token in Hrun. simpl in Hrun. rewrite Htruthy in Hrun.
    simpl in Hrun. run_monad.
    destruct (curl _ _ _ w) as [[body|e] w1] eqn:Hcurl; simpl in Hrun; [|discriminate].
    destruct (json_loads_user body) as [doc|e] eqn:Hjson; [|discriminate].
    case_bool_decide as Hlogin; simpl in Hrun; [discriminate|].
    injection Hrun as <- <-.
    exists tok, body, doc, w1. split_and!; done.
  - unfold validate_token in Hrun. simpl in Hrun. rewrite Htruthy in Hrun.
    simpl in Hrun. discriminate.
Qed.

(** X7. What [config] does with its arguments.  When a user and a file
    name are both passed, the command line is not read: [config] is
    authentication followed by the setting of the paths, with user, file
    name and flag as passed.  When one of them is missing and argparse
    refuses the command line, [config] ends with that exception.  And
    whenever [config] returns, the missing ones come from the command
    line, its [-y] is taken unless the flag was passed as true, the local
    directory is the current one and the local path is the file name
    joined to it. *)
Theorem config_fields (self : Gist) (user0 file_name0 : string)
    (assume_yes0 : bool) (w : world) :
  (truthy user0 && truthy file_name0 = true →
   config self user0 file_name0 assume_yes0 w
   = ('(known, ok) ← authenticated
                       (set_assume_yes assume_yes0
                          (set_file_name file_name0 (set_user user0 self)));
      mret (set_local realpath_curdir
              (path_join realpath_curdir (file_name (set_auth (Some ok) known)))
              (set_auth (Some ok) known))) w)
  ∧ (truthy user0 && truthy file_name0 = false →
     ∀ e, parse_args (negb (truthy user0)) (negb (truthy file_name0)) = Raise e →
          (config self user0 file_name0 assume_yes0 w).1 = Raise e)
  ∧ ∀ self' w',
      config self user0 file_name0 assume_yes0 w = (Return self', w') →
      is_Some (auth self')
      ∧ token self' = getenv "GETGIST_TOKEN"
      ∧ local_dir self' = realpath_curdir
      ∧ local_path self' = path_join realpath_curdir (file_name self')
      ∧ info self' = info self
      ∧ (truthy user0 && truthy file_name0 = true →
         user self' = user0 ∧ file_name self' = file_name0
         ∧ assume_yes self' = assume_yes0)
      ∧ (truthy user0 && truthy file_name0 = false →
         ∃ args,
           parse_args (negb (truthy user0)) (negb (truthy file_name0)) = Return args
           ∧ user self' = (if truthy user0 then user0 else args_user args)
           ∧ file_name self'
             = (if truthy file_name0 then file_name0 else args_file_name args)
           ∧ assume_yes self' = assume_yes0 || args_yes_to_all args).
Proof.
  split_and!.
  - intros [Huser Hfile]%andb_true_iff. unfold config. run_monad. simpl.
    by rewrite Huser, Hfile.
  - intros Hmissing e Hparse. unfold config. run_monad. simpl.
    destruct (truthy user0), (truthy file_name0); try discriminate Hmissing;
      simpl in *; by rewrite Hparse.
  - intros self' w'. unfold config. run_monad. simpl. intros Hrun.
    destruct (truthy user0) eqn:Huser, (truthy file_name0) eqn:Hfile; simpl in Hrun.
    + destruct (authenticated _ w) as [[[s ok]|e] w1] eqn:Hauth; [|discriminate].
      apply authenticated_fields in Hauth as ->. injection Hrun as <- <-.
      split_and!; done.
    + destruct (parse_args false true) as [args|e] eqn:Hargs; [|discriminate].
      destruct (authenticated _ w) as [[[s ok]|e] w1] eqn:Hauth; [|discriminate].
      apply authenticated_fields in Hauth as ->. injection Hrun as <- <-.
      destruct assume_yes0; simpl; (split_and!; try done);
        intros _; by exists args.
    + destruct (parse_args true false) as [args|e] eqn:Hargs; [|discriminate].
      destruct (authenticated _ w) as [[[s ok]|e] w1] eqn:Hauth; [|discriminate].
      apply authenticated_fields in Hauth as ->. injection Hrun as <- <-.
      destruct assume_yes0; simpl; (split_and!; try done);
        intros _; by exists args.
    + destruct (parse_args true true) as [args|e] eqn:Hargs; [|discriminate].
      destruct (authenticated _ w) as [[[s ok]|e] w1] eqn:Hauth; [|discriminate].
      apply authenticated_fields in Hauth as ->. injection Hrun as <- <-.
      destruct assume_yes0; simpl; (split_and!; try done);
        intros _; by exists args.
Qed.

End AuthenticatorMore.

Section LocatorMore.
Context `{Runtime}.

(** X8. When the listing cannot be fetched ([HTTPError]), [json.loads] is
    not called: [query_api] gives a hint and no gists, and
    [load_gist_info] ends as for a file that is not there, with [False]. *)
Theorem load_gist_info_failed_listing (self : Gist) (w : world) :
  (∀ dict, ∃ code,
     urlopen (api_url +:+ "/users/" +:+ user self +:+ "/gists") dict
     = Raise (HTTPError code)) →
  ∃ w',
    load_gist_info self w = (Return None, w')
    ∧ console w'
      = console w ++
          [Print ("  Fetching " +:+ (api_url +:+ "/users/" +:+ user self +:+ "/gists")
                  +:+ " …");
           Print ("  [Error] Couldn't reach GitHub at "
                  +:+ (api_url +:+ "/users/" +:+ user self +:+ "/gists") +:+ ".");
           Print "  [Hint] Check if the entered user name is correct.";
           not_found_report self]
    ∧ stdin w' = stdin w ∧ fs w' = fs w.
Proof.
  intros Hnet.
  destruct (curl_recovers_HTTPError self _ None w Hnet)
    as (w1 & Hcurl & Hconsole & Hstdin & Hfs).
  unfold load_gist_info, filter_gists, query_api. run_monad.
  rewrite Hcurl. simpl. eexists. split; [reflexivity|]. simpl.
  rewrite Hconsole. split_and!; [|done|done]. by rewrite <- !app_assoc.
Qed.

(** X9. Resolution without a dialogue: when the listing has exactly one
    gist with the file, or has several and auto-select is on,
    [load_gist_info] returns the first match of the listing and adds
    nothing to what [query_api] printed. *)
Theorem load_gist_info_direct (self : Gist) (w w1 : world) (listing : list gist)
    (first : gist_info) (others : list gist_info) :
  query_api self w = (Return listing, w1) →
  filter_loop (file_name self) listing = first :: others →
  others = [] ∨ assume_yes self = true →
  load_gist_info self w = (Return (Some first), w1).
Proof.
  intros Hquery Hmatches Hdirect.
  unfold load_gist_info, filter_gists. run_monad. rewrite Hquery, Hmatches.
  rewrite bool_decide_eq_true_2 by done.
  destruct Hdirect as [->|Hyes].
  - by destruct recursion_limit.
  - destruct recursion_limit; simpl; rewrite Hyes; by rewrite orb_true_r.
Qed.

Lemma select_file_body (depth : nat) (self : Gist)
    (first : gist_info) (others : list gist_info) :
  select_file depth self (first :: others)
  = (if bool_decide (length (first :: others) = 1) || assume_yes self
     then mret (Some first)
     else
       output ("Download " +:+ file_name self +:+ " from which Gist?");;
       valid_indexes ← list_options (first :: others) (first :: others) [];
       answer ← attempt any_exception
                  (line ← ask "Type the number: ";
                   n ← lift (py_int line);
                   mret (n - 1)%Z);
       match answer with
       | inl _ =>
           output "Please type a number.";;
           select_again depth self (first :: others)
       | inr gist_index =>
           if negb (bool_decide (gist_index ∈ valid_indexes)) then
             output "Invalid number, please try again.";;
             select_again depth self (first :: others)
           else
             match list_getitem (first :: others) gist_index with
             | None => raise IndexError
             | Some selected =>
                 output ("Using `" +:+ fmt (gi_description selected) +:+ "` Gist…");;
                 mret (Some selected)
             end
       end).
Proof. destruct depth; reflexivity. Qed.

(** The number [k] is accepted exactly when candidate [k] is there and no
    earlier candidate equals it. *)
Lemma valid_index_first_occurrence (files : list gist_info) (i : nat) :
  Z.of_nat i ∈ index_in files <$> files
  ↔ ∃ f, files !! i = Some f ∧ list_index f files = Some i.
Proof.
  split.
  - intros (g & Hi & Hg)%list_elem_of_fmap.
    destruct (list_index_elem_of files g Hg) as [j Hj].
    unfold index_in in Hi. rewrite Hj in Hi. simpl in Hi.
    assert (i = j) as -> by lia.
    exists g. split; [by apply list_index_lookup|done].
  - intros (f & Hf & Hidx). apply list_elem_of_fmap. exists f. split.
    + unfold index_in. by rewrite Hidx.
    + by eapply list_elem_of_lookup_2.
Qed.

(** X10. Which numbers the dialogue takes.  With several candidates and
    auto-select off, the number [k] of a candidate that no earlier
    candidate equals gives that candidate; the number of a candidate equal
    to an earlier one is refused like a number out of range
    ([files.index] finds the earlier one). *)
Theorem select_file_first_occurrence (self : Gist) (files : list gist_info)
    (depth : nat) (w : world) (line : string) (rest : list string)
    (i : nat) (f : gist_info) :
  assume_yes self = false →
  1 < length files →
  stdin w = line :: rest →
  py_int line = Return (Z.of_nat (S i)) →
  files !! i = Some f →
  (list_index f files = Some i →
   select_file depth self files w
   = (Return (Some f),
      with_stdin rest
        (with_console
           (console w ++ menu self files
            ++ [Prompt "  Type the number: ";
                Print ("  Using `" +:+ fmt (gi_description f) +:+ "` Gist…")]) w)))
  ∧ (list_index f files ≠ Some i →
     select_file (S depth) self files w
     = select_file depth self files
         (with_stdin rest
            (with_console
               (console w ++ menu self files
                ++ [Prompt "  Type the number: ";
                    Print "  Invalid number, please try again."]) w))).
Proof.
  intros Hask Hmany Hin Hint Hf.
  assert ((Z.of_nat (S i) - 1)%Z = Z.of_nat i) as Hpred by lia.
  split; intros Hidx.
  - apply (select_file_accepts self files Hask Hmany depth w line rest (Z.of_nat (S i)));
      try done.
    + rewrite Hpred. apply valid_index_first_occurrence. eauto.
    + rewrite Hpred. unfold list_getitem.
      rewrite (proj2 (Z.ltb_ge _ _)) by lia. by rewrite Nat2Z.id.
  - rewrite (select_file_refuses self files Hask Hmany depth w line rest Hin).
    + unfold refused_round, complaint. by rewrite Hint.
    + intros k Hk. rewrite Hint in Hk. injection Hk as <-. rewrite Hpred.
      intros (g & Hg & Hidx')%valid_index_first_occurrence. congruence.
Qed.

(** At the end of the input the bare [except:] takes the [EOFError] of
    [input] for a wrong answer. *)
Lemma select_file_eof (self : Gist) (files : list gist_info) (depth : nat) (w : world) :
  assume_yes self = false →
  1 < length files →
  stdin w = [] →
  select_file depth self files w
  = select_again depth self files
      (with_console
         (console w ++ menu self files
          ++ [Prompt "  Type the number: "; Print "  Please type a number."]) w).
Proof.
  intros Hask Hmany Hin.
  destruct files as [|first others] eqn:Hfiles; [simpl in Hmany; lia|].
  rewrite select_file_body. rewrite <- Hfiles in *.
  rewrite Hask, bool_decide_eq_false_2 by lia. simpl.
  run_monad. unfold output at 1. simpl.
  rewrite list_options_run by done. simpl.
  unfold attempt, ask. simpl. rewrite Hin. simpl.
  unfold output, menu. simpl. f_equal. unfold with_console. simpl.
  f_equal. by rewrite <- !app_assoc.
Qed.

Lemma option_lines_no_prompt (files todo : list gist_info) :
  filter is_prompt (option_line files <$> todo) = [].
Proof. induction todo as [|f todo IH]; [done|]. rewrite fmap_cons, filter_cons. exact IH. Qed.

Lemma menu_no_prompt (self : Gist) (files : list gist_info) :
  filter is_prompt (menu self files) = [].
Proof. unfold menu. rewrite filter_cons. simpl. apply option_lines_no_prompt. Qed.

(** X11. At the end of the input the dialogue does not end with
    [EOFError]: it prints menu, prompt and complaint once per nested call
    the interpreter allows, and ends with [RecursionError]. *)
Theorem select_file_end_of_input (self : Gist) (files : list gist_info)
    (depth : nat) (w : world) :
  assume_yes self = false →
  1 < length files →
  stdin w = [] →
  (select_file depth self files w).1 = Raise RecursionError
  ∧ prompts (select_file depth self files w).2 = prompts w + S depth
  ∧ fs (select_file depth self files w).2 = fs w.
Proof.
  intros Hask Hmany. revert w.
  assert (∀ w0 : world,
            prompts (with_console
                       (console w0 ++ menu self files
                        ++ [Prompt "  Type the number: ";
                            Print "  Please type a number."]) w0)
            = S (prompts w0)) as Hcount.
  { intros w0. unfold prompts, with_console. cbn [console].
    rewrite !filter_app, !length_app, menu_no_prompt. simpl. lia. }
  induction depth as [|depth IH]; intros w Hin.
  - rewrite select_file_eof by done. unfold select_again, raise. cbn [fst snd].
    rewrite Hcount. split_and!; [done|lia|done].
  - rewrite select_file_eof by done. cbn [select_again].
    destruct (IH (with_console
                    (console w ++ menu self files
                     ++ [Prompt "  Type the number: ";
                         Print "  Please type a number."]) w) Hin)
      as (Hraise & Hprompts & Hfs).
    rewrite Hraise, Hprompts, Hfs, Hcount. split_and!; [done|lia|done].
Qed.

(** X12. The retries are bounded by the interpreter alone: one refused
    answer more than it allows nested calls ends the dialogue with
    [RecursionError]. *)
Theorem select_file_budget_exhausted (self : Gist) (files : list gist_info)
    (bad rest : list string) (depth : nat) (w : world) :
  assume_yes self = false →
  1 < length files →
  Forall (refused (length files)) bad →
  length bad = S depth →
  stdin w = bad ++ rest →
  (select_file depth self files w).1 = Raise RecursionError.
Proof.
  intros Hask Hmany Hbad. revert depth w.
  assert (∀ line, refused (length files) line →
            ∀ k, py_int line = Return k → (k - 1)%Z ∉ index_in files <$> files)
    as Hrefused.
  { intros line Hline k Hk Hvalid. apply elem_of_valid_indexes_bounds in Hvalid.
    apply (Hline k Hk). lia. }
  induction Hbad as [|line bad Hline Hbad IH]; intros depth w Hlen Hin; [done|].
  destruct depth as [|depth].
  - destruct bad; [|done].
    by apply (select_file_exhausted self files Hask Hmany w line rest), Hrefused.
  - rewrite (select_file_refuses self files Hask Hmany depth w line (bad ++ rest));
      [|done|by apply Hrefused].
    apply IH; [simpl in Hlen; lia|done].
Qed.

End LocatorMore.

Section ReconcilerMore.
Context `{Runtime}.

(** With auto-select on, nothing is asked about an existing file. *)
Lemma save_existing_assume_yes (self : Gist) (w : world) :
  assume_yes self = true →
  save_existing self w
  = match fs w !! local_path self with
    | Some _ =>
        (Return tt,
         with_fs (delete (local_path self) (fs w))
           (with_console
              (console w ++ [Print ("  Deleting existing " +:+ file_name self +:+ " …")])
              w))
    | None => (Return tt, w)
    end.
Proof.
  intros Hyes. unfold save_existing. run_monad. unfold os_path_exists. simpl.
  destruct (fs w !! local_path self) as [old|] eqn:Hold.
  - rewrite bool_decide_eq_true_2 by (by eexists). rewrite Hyes. simpl.
    unfold output, os_remove. simpl. by rewrite Hold.
  - by rewrite bool_decide_eq_false_2 by (by intros [? ?]).
Qed.

(** X13. With auto-select on, [save] asks nothing and reads nothing, and
    makes no backup of a file that is in the way: whether the fetch
    succeeds or not, the files afterwards differ from those before at the
    target path only. *)
Theorem save_assume_yes_no_backup (self : Gist) (w : world) :
  assume_yes self = true →
  stdin (save self w).2 = stdin w
  ∧ prompts (save self w).2 = prompts w
  ∧ ∃ text, fs (save self w).2 = <[local_path self := text]> (fs w).
Proof.
  intros Hyes. rewrite save_parts, (save_existing_assume_yes self w Hyes).
  destruct (fs w !! local_path self) as [old|] eqn:Hold.
  - match goal with |- context [save_new self ?w1] =>
      destruct (save_new_frame self w1) as (Hs & Hp & text & Hf) end.
    rewrite Hs, Hp. split_and!; [done|apply prompts_print|].
    exists text. rewrite Hf. simpl. by rewrite insert_delete_eq.
  - destruct (save_new_frame self w) as (Hs & Hp & text & Hf). eauto.
Qed.

(** With auto-select on and a fetch that succeeds, the [save] of the model
    (where opening and writing do not fail) completes. *)
Lemma save_assume_yes_run (self : Gist) (w : world) (C : string) :
  assume_yes self = true →
  (∀ dict, urlopen (raw_url self) dict = Return (Response 200 (Return C))) →
  ∃ w', save self w = (Return tt, w') ∧ fs w' = <[local_path self := C]> (fs w).
Proof.
  intros Hyes Hnet. rewrite save_parts, (save_existing_assume_yes self w Hyes).
  assert (∀ w1, ∃ w', save_new self w1 = (Return tt, w')
                      ∧ fs w' = <[local_path self := C]> (fs w1)) as Hnew.
  { intros w1.
    destruct (curl_fetches self (raw_url self) None
                (with_fs (<[local_path self := ""]> (fs w1)) w1) (Return C) Hnet)
      as (w2 & Hcurl & _).
    destruct (save_new_run self w1)
      as (w2' & _ & _ & _ & [(e & Hcurl' & _)|(c & Hcurl' & Hrun)]); [congruence|].
    rewrite Hcurl in Hcurl'. injection Hcurl' as <- <-.
    eexists. split; [exact Hrun|done]. }
  destruct (fs w !! local_path self) as [old|] eqn:Hold.
  - match goal with |- context [save_new self ?w1] =>
      destruct (Hnew w1) as (w' & Hrun & Hfs) end.
    exists w'. split; [done|]. rewrite Hfs. simpl. by rewrite insert_delete_eq.
  - apply Hnew.
Qed.

(** X14. When [save] is run twice in a row with auto-select on, the fetch
    returning the text [C] each time, and both runs return, the directory
    is as one such run leaves it: [C] at the target path and no other file
    added or changed. *)
Theorem save_twice_assume_yes (self : Gist) (w w' : world) (C : string) :
  assume_yes self = true →
  (∀ dict, urlopen (raw_url self) dict = Return (Response 200 (Return C))) →
  (save self;; save self) w = (Return tt, w') →
  fs w' = <[local_path self := C]> (fs w).
Proof.
  intros Hyes Hnet. run_monad.
  destruct (save_assume_yes_run self w C Hyes Hnet) as (w1 & Hrun1 & Hfs1).
  destruct (save_assume_yes_run self w1 C Hyes Hnet) as (w2 & Hrun2 & Hfs2).
  rewrite Hrun1, Hrun2. intros [= <-].
  by rewrite Hfs2, Hfs1, insert_insert_eq.
Qed.

(** X15. The existing file is dealt with before the fetch.  With
    auto-select on, a file in the way and a fetch that raises (an
    unreachable host, say), [save] ends with that exception, the old text
    is gone and an empty file is in its place. *)
Theorem save_loses_file_when_fetch_raises (self : Gist) (w : world)
    (old : string) (e : exn) :
  assume_yes self = true →
  fs w !! local_path self = Some old →
  is_HTTPError e = false →
  (∀ dict, urlopen (raw_url self) dict = Raise e) →
  ∃ w', save self w = (Raise e, w') ∧ fs w' = <[local_path self := ""]> (fs w).
Proof.
  intros Hyes Hold Hclass Hnet.
  rewrite save_parts, (save_existing_assume_yes self w Hyes), Hold.
  match goal with |- context [save_new self ?w0] => set (w1 := w0) end.
  destruct (save_new_run self w1)
    as (w2 & Hfs & _ & _ & [(e' & Hcurl & Hrun)|(c & Hcurl & _)]).
  - destruct (curl_prepare_returns self None (with_fs (<[local_path self := ""]> (fs w1)) w1))
      as (dict & w3 & Hprep & _).
    rewrite (curl_unfold _ _ _ _ _ _ Hprep), Hnet, Hclass in Hcurl.
    injection Hcurl as <- _. exists w2. split; [done|].
    rewrite Hfs. unfold w1. simpl. by rewrite insert_delete_eq.
  - destruct (curl_prepare_returns self None (with_fs (<[local_path self := ""]> (fs w1)) w1))
      as (dict & w3 & Hprep & _).
    rewrite (curl_unfold _ _ _ _ _ _ Hprep), Hnet, Hclass in Hcurl. discriminate.
Qed.

(** X16. At the end of the input the question about the existing file
    ends [save] with [EOFError], after the prompt and before anything is
    removed, moved or fetched. *)
Theorem save_eof_keeps_file (self : Gist) (w : world) (old : string) :
  assume_yes self = false →
  fs w !! local_path self = Some old →
  stdin w = [] →
  save self w
  = (Raise EOFError,
     with_console
       (console w ++ [Prompt ("  Delete existing " +:+ file_name self +:+ " ? (y/n) ")])
       w).
Proof.
  intros Hask Hold Hin. rewrite save_parts.
  unfold save_existing. run_monad. unfold os_path_exists. simpl.
  rewrite bool_decide_eq_true_2 by (rewrite Hold; by eexists).
  rewrite Hask. unfold ask. simpl. by rewrite Hin.
Qed.

(** X17. [backup] does not test for the file it moves: without it, the
    move is announced and [os.rename] raises; the files stay as they are. *)
Theorem backup_missing_file (self : Gist) (w : world) :
  fs w !! path_join (local_dir self) (file_name self) = None →
  ∃ n,
    first_free (fs w) (local_dir self) (file_name self) n
    ∧ backup self w
      = (Raise FileNotFoundError,
         with_console
           (console w ++
              [Print ("  Moving existing " +:+ file_name self +:+ " to "
                      +:+ backup_name (file_name self) n +:+ "…")]) w).
Proof.
  intros Hmissing. unfold backup.
  destruct (backup_loop_total (fs w) (local_dir self) (file_name self)) as [n Hloop].
  exists n. split; [by apply backup_loop_first_free|].
  rewrite Hloop. run_monad. unfold output, os_rename. simpl. by rewrite Hmissing.
Qed.

End ReconcilerMore.

Lemma lower_ascii_y (c : ascii) :
  lower_ascii c = "y"%char ↔ c = "y"%char ∨ c = "Y"%char.
Proof.
  destruct c as [[] [] [] [] [] [] [] []]; vm_compute;
    (split; [intros Heq; first [discriminate Heq | by left | by right]
            |intros [Heq|Heq]; first [discriminate Heq | reflexivity]]).
Qed.

(** X18. The replies that delete.  The comparison [confirm.lower() == 'y']
    of [save] holds for the two replies [y] and [Y] and for no other: not
    for [yes], not for a reply with a blank around it, not for the empty
    line. *)
Theorem delete_reply_iff (reply : string) :
  String.eqb (lower reply) "y" = true ↔ reply = "y" ∨ reply = "Y".
Proof.
  rewrite String.eqb_eq. destruct reply as [|c [|c' reply]]; simpl.
  - split; [discriminate|by intros [?|?]].
  - split.
    + intros [= Hc]. apply lower_ascii_y in Hc as [->| ->]; auto.
    + intros [[= ->]|[= ->]]; reflexivity.
  - split; [discriminate|by intros [?|?]].
Qed.

Section OrchestratorMore.
Context `{Runtime}.

(** X19. [MyGist] is [Gist] for the user of [GETGIST_USER]; when that
    variable is unset or empty, for the line typed at a prompt (after two
    notices), and at the end of the input the run ends with [EOFError]
    before anything is fetched. *)
Theorem MyGist_init_user (file_name0 : string) (assume_yes0 : bool) (w : world) :
  (∀ name, getenv "GETGIST_USER" = Some name → truthy name = true →
     MyGist_init file_name0 assume_yes0 w = Gist_init name file_name0 assume_yes0 w)
  ∧ (truthy_opt (getenv "GETGIST_USER") = false →
     match stdin w with
     | line :: rest =>
         MyGist_init file_name0 assume_yes0 w
         = Gist_init line file_name0 assume_yes0
             (with_stdin rest
                (with_console
                   (console w ++
                      [Print "  No default user set yet. To avoid this prompt set an";
                       Print "  environmental variable called `GETGIST_USER`.";
                       Prompt "  Please type your GitHub user name: "]) w))
     | [] =>
         MyGist_init file_name0 assume_yes0 w
         = (Raise EOFError,
            with_console
              (console w ++
                 [Print "  No default user set yet. To avoid this prompt set an";
                  Print "  environmental variable called `GETGIST_USER`.";
                  Prompt "  Please type your GitHub user name: "]) w)
     end).
Proof.
  split.
  - intros name Henv Hname. unfold MyGist_init, Gist_init, get_user. run_monad.
    by rewrite Henv, Hname.
  - intros Hunset.
    assert (get_user w
            = ask "Please type your GitHub user name: "
                (with_console
                   (console w ++
                      [Print "  No default user set yet. To avoid this prompt set an";
                       Print "  environmental variable called `GETGIST_USER`."]) w))
      as Huser.
    { unfold get_user. destruct (getenv "GETGIST_USER") as [name|]; simpl in Hunset.
      - rewrite Hunset. run_monad. unfold output. simpl.
        unfold with_console. simpl. by rewrite <- !app_assoc.
      - run_monad. unfold output. simpl.
        unfold with_console. simpl. by rewrite <- !app_assoc. }
    unfold MyGist_init, Gist_init. run_monad. rewrite Huser. unfold ask. simpl.
    destruct (stdin w) as [|line rest]; simpl.
    + unfold with_console. simpl. by rewrite <- !app_assoc.
    + unfold with_console, with_stdin. simpl. by rewrite <- !app_assoc.
Qed.

(** X20. A whole run.  When [config] has returned, the listing has exactly
    one gist with the file, no file is in the way, the raw URL answers
    with the text [C] and [run_getgist] returns, the directory has gained
    exactly the file, holding [C]. *)
Theorem run_getgist_downloads (w w0 w1 w' : world) (self : Gist) (listing : list gist)
    (found : gist_info) (C : string) :
  config (MkGist None "" "" false None "" "" None) "" "" false w = (Return self, w0) →
  query_api self w0 = (Return listing, w1) →
  filter_loop (file_name self) listing = [found] →
  fs w !! local_path self = None →
  (∀ dict, urlopen (gi_raw_url found) dict = Return (Response 200 (Return C))) →
  run_getgist w = (Return tt, w') →
  fs w' = <[local_path self := C]> (fs w).
Proof.
  intros Hconfig Hquery Hmatch Habsent Hnet.
  pose proof (preserves_query_api fs fs_print (λ _ _, eq_refl) self w0) as Hq.
  pose proof (preserves_config fs fs_print (λ _ _, eq_refl)
                (MkGist None "" "" false None "" "" None) "" "" false w) as Hc.
  rewrite Hquery in Hq. rewrite Hconfig in Hc. simpl in Hq, Hc.
  assert (load_gist_info self w0 = (Return (Some found), w1)) as Hload.
  { unfold load_gist_info, filter_gists. run_monad. rewrite Hquery, Hmatch.
    rewrite bool_decide_eq_true_2 by done. by destruct recursion_limit. }
  destruct (save_completes (set_info (Some found) self) w1 C) as (w2 & Hsave & Hfs).
  { simpl. congruence. }
  { exact Hnet. }
  assert (run_getgist w = (Return tt, w2)) as ->.
  { unfold run_getgist, Gist_init. run_monad. rewrite Hconfig, Hload. simpl.
    exact Hsave. }
  intros [= <-]. rewrite Hfs. simpl. congruence.
Qed.

End OrchestratorMore.

(** * The further properties at work on the simulated runtime *)


Lemma curl_failure_returns_empty_witness :
  (∃ w',
     @curl (Sim.anonymous "gone.txt") (Sim.alice "gone.txt" false (Some Sim.gone))
       Sim.raw_gone None (Sim.start ∅ [])
     = (Return "", w')
     ∧ length (console w') = 2)
  ∧ (∃ w',
       @curl silent_runtime (Sim.alice "gone.txt" false (Some Sim.gone))
         Sim.raw_gone None (Sim.start ∅ [])
       = (Return "", w')
       ∧ last (console w')
         = Some (Print "  [Error] HTTP Status https://gist.githubusercontent.com/alice/ee55/raw/gone.txt.")).
Proof.
  split.
  - destruct (proj1 (@curl_failure_returns_empty (Sim.anonymous "gone.txt")
                       (Sim.alice "gone.txt" false (Some Sim.gone))
                       Sim.raw_gone None (Sim.start ∅ [])))
      as (w' & Hrun & Hconsole & _).
    + intros dict. exists 404%Z. reflexivity.
    + exists w'. split; [exact Hrun|]. rewrite Hconsole. reflexivity.
  - destruct (proj2 (@curl_failure_returns_empty silent_runtime
                       (Sim.alice "gone.txt" false (Some Sim.gone))
                       Sim.raw_gone None (Sim.start ∅ [])))
      as (w' & Hrun & Hconsole & _).
    + intros dict. eexists. split; [reflexivity|]. simpl. lia.
    + exists w'. split; [exact Hrun|]. rewrite Hconsole. reflexivity.
Defined.

Lemma curl_status_200_witness :
  @curl (Sim.anonymous "todo.md") (Sim.alice "todo.md" false (Some Sim.todo))
    Sim.raw_todo (Some ∅) (Sim.start ∅ [])
  = (Return "buy milk",
     with_console
       [Print "  Fetching https://gist.githubusercontent.com/alice/bb22/raw/todo.md …"]
       (Sim.start ∅ [])).
Proof.
  apply (@curl_status_200 (Sim.anonymous "todo.md")
           (Sim.alice "todo.md" false (Some Sim.todo)) Sim.raw_todo ∅ (Sim.start ∅ [])
           (Return "buy milk")).
  - discriminate.
  - reflexivity.
Defined.

Lemma curl_default_headers_stick_witness :
  curl_headers
    (@curl (Sim.runtime (Some "s3cret") (CliArgs "alice" "todo.md" false))
       (MkGist (Some true) "alice" "todo.md" false (Some "s3cret") "" "" None)
       Sim.raw_todo None (Sim.start ∅ [])).2
  = {[ "Authorization" := "token s3cret" ]}.
Proof.
  apply (@curl_default_headers_stick
           (Sim.runtime (Some "s3cret") (CliArgs "alice" "todo.md" false))
           (MkGist (Some true) "alice" "todo.md" false (Some "s3cret") "" "" None)
           Sim.raw_todo (Sim.start ∅ [])); reflexivity.
Defined.

Lemma authenticated_only_on_match_witness :
  ∃ tok, getenv (Runtime := Sim.runtime (Some "s3cret") (CliArgs "alice" "todo.md" false))
           "GETGIST_TOKEN" = Some tok
         ∧ truthy tok = true.
Proof.
  edestruct (@authenticated_only_on_match
               (Sim.runtime (Some "s3cret") (CliArgs "alice" "todo.md" false))
               (MkGist None "alice" "todo.md" false None "" "" None)
               (MkGist None "alice" "todo.md" false (Some "s3cret") "" "" None)
               (Sim.start ∅ [])
               (with_console [Print "  Fetching https://api.github.com/user …";
                              Print "  User `alice` authenticated."] (Sim.start ∅ [])))
    as (tok & _ & _ & _ & Htok & Htruthy & _).
  - vm_compute. reflexivity.
  - exists tok. split; [exact Htok|exact Htruthy].
Defined.

Lemma config_fields_witness :
  ∃ self' w',
    @config (Sim.anonymous "todo.md") (MkGist None "" "" false None "" "" None)
      "" "" false (Sim.start ∅ [])
    = (Return self', w')
    ∧ user self' = "alice" ∧ file_name self' = "todo.md"
    ∧ local_path self' = "/home/alice/todo.md".
Proof.
  eexists _, _. split; [vm_compute; reflexivity|].
  destruct (@config_fields (Sim.anonymous "todo.md")
              (MkGist None "" "" false None "" "" None) "" "" false (Sim.start ∅ []))
    as (_ & _ & Hfields).
  edestruct (Hfields (Sim.alice "todo.md" false None)
               (with_console [Print "  No access token set.";
                              Print "  Looking for public Gists only."] (Sim.start ∅ [])))
    as (_ & _ & _ & Hpath & _ & _ & Hargs).
  - vm_compute. reflexivity.
  - destruct (Hargs eq_refl) as (args & Hparse & Huser & Hfile & _).
    injection Hparse as <-. split_and!; [exact Huser|exact Hfile|exact Hpath].
Defined.

Lemma load_gist_info_failed_listing_witness :
  ∃ w',
    @load_gist_info (Sim.anonymous "notes.txt")
      (MkGist (Some false) "bob" "notes.txt" false None "/home/alice"
              "/home/alice/notes.txt" None) (Sim.start ∅ [])
    = (Return None, w')
    ∧ length (console w') = 4.
Proof.
  destruct (@load_gist_info_failed_listing (Sim.anonymous "notes.txt")
              (MkGist (Some false) "bob" "notes.txt" false None "/home/alice"
                      "/home/alice/notes.txt" None) (Sim.start ∅ []))
    as (w' & Hrun & Hconsole & _).
  - intros dict. exists 404%Z. reflexivity.
  - exists w'. split; [exact Hrun|]. rewrite Hconsole. reflexivity.
Defined.

Lemma load_gist_info_direct_witness :
  @load_gist_info (Sim.anonymous "todo.md") (Sim.alice "todo.md" false None)
    (Sim.start ∅ ["unread"])
  = (Return (Some Sim.todo),
     with_console [Print "  Fetching https://api.github.com/users/alice/gists …"]
       (Sim.start ∅ ["unread"])).
Proof.
  apply (@load_gist_info_direct (Sim.anonymous "todo.md")
           (Sim.alice "todo.md" false None) (Sim.start ∅ ["unread"]) _
           Sim.alice_gists Sim.todo []).
  - vm_compute. reflexivity.
  - vm_compute. reflexivity.
  - by left.
Defined.

(** The same candidate twice: its second number is refused, its first is
    taken. *)
Lemma select_file_first_occurrence_witness :
  @select_file (Sim.anonymous "notes.txt") 1
    (Sim.alice "notes.txt" false None) [Sim.notes_v1; Sim.notes_v1]
    (Sim.start ∅ ["2"; "1"])
  = @select_file (Sim.anonymous "notes.txt") 0
      (Sim.alice "notes.txt" false None) [Sim.notes_v1; Sim.notes_v1]
      (with_stdin ["1"]
         (with_console
            (@menu (Sim.alice "notes.txt" false None) [Sim.notes_v1; Sim.notes_v1]
             ++ [Prompt "  Type the number: ";
                 Print "  Invalid number, please try again."])
            (Sim.start ∅ ["2"; "1"]))).
Proof.
  apply (proj2 (@select_file_first_occurrence (Sim.anonymous "notes.txt")
                  (Sim.alice "notes.txt" false None) [Sim.notes_v1; Sim.notes_v1]
                  0 (Sim.start ∅ ["2"; "1"]) "2" ["1"] 1 Sim.notes_v1
                  eq_refl ltac:(simpl; lia) eq_refl eq_refl eq_refl)).
  discriminate.
Defined.

Lemma select_file_end_of_input_witness :
  (@select_file (Sim.anonymous "notes.txt") 3
     (Sim.alice "notes.txt" false None) [Sim.notes_v1; Sim.notes_v2]
     (Sim.start ∅ [])).1
  = Raise RecursionError.
Proof.
  apply (@select_file_end_of_input (Sim.anonymous "notes.txt")
           (Sim.alice "notes.txt" false None) [Sim.notes_v1; Sim.notes_v2] 3
           (Sim.start ∅ [])).
  - reflexivity.
  - simpl. lia.
  - reflexivity.
Defined.

Lemma select_file_budget_exhausted_witness :
  (@select_file (Sim.anonymous "notes.txt") 1
     (Sim.alice "notes.txt" false None) [Sim.notes_v1; Sim.notes_v2]
     (Sim.start ∅ ["x"; "7"; "2"])).1
  = Raise RecursionError.
Proof.
  apply (@select_file_budget_exhausted (Sim.anonymous "notes.txt")
           (Sim.alice "notes.txt" false None) [Sim.notes_v1; Sim.notes_v2]
           ["x"; "7"] ["2"] 1 (Sim.start ∅ ["x"; "7"; "2"])).
  - reflexivity.
  - simpl. lia.
  - apply Forall_forall. intros line Hline k Hk.
    repeat (apply elem_of_cons in Hline as [->|Hline];
            [vm_compute in Hk; first [discriminate Hk | injection Hk as <-; simpl; lia]|]).
    by apply elem_of_nil in Hline.
  - reflexivity.
  - reflexivity.
Defined.

Lemma save_assume_yes_no_backup_witness :
  stdin (@save (Sim.anonymous "todo.md") (Sim.alice "todo.md" true (Some Sim.todo))
           (Sim.start {[ "/home/alice/todo.md" := "old list" ]} ["unread"])).2
  = ["unread"].
Proof.
  apply (@save_assume_yes_no_backup (Sim.anonymous "todo.md")
           (Sim.alice "todo.md" true (Some Sim.todo))
           (Sim.start {[ "/home/alice/todo.md" := "old list" ]} ["unread"])).
  reflexivity.
Defined.

Lemma save_twice_assume_yes_witness :
  ∃ w',
    (@save (Sim.anonymous "todo.md") (Sim.alice "todo.md" true (Some Sim.todo));;
     @save (Sim.anonymous "todo.md") (Sim.alice "todo.md" true (Some Sim.todo)))
      (Sim.start {[ "/home/alice/todo.md" := "old list" ]} [])
    = (Return tt, w')
    ∧ fs w' = <[ "/home/alice/todo.md" := "buy milk" ]>
                {[ "/home/alice/todo.md" := "old list" ]}.
Proof.
  eexists. split; [vm_compute; reflexivity|].
  rewrite (@save_twice_assume_yes (Sim.anonymous "todo.md")
             (Sim.alice "todo.md" true (Some Sim.todo))
             (Sim.start {[ "/home/alice/todo.md" := "old list" ]} []) _ "buy milk"
             eq_refl (λ _, eq_refl)).
  - reflexivity.
  - vm_compute. reflexivity.
Defined.

Lemma save_loses_file_when_fetch_raises_witness :
  ∃ w',
    @save (Sim.anonymous "offline.txt") (Sim.alice "offline.txt" true (Some Sim.offline))
      (Sim.start {[ "/home/alice/offline.txt" := "precious" ]} [])
    = (Raise URLError, w')
    ∧ fs w' = {[ "/home/alice/offline.txt" := "" ]}.
Proof.
  destruct (@save_loses_file_when_fetch_raises (Sim.anonymous "offline.txt")
              (Sim.alice "offline.txt" true (Some Sim.offline))
              (Sim.start {[ "/home/alice/offline.txt" := "precious" ]} [])
              "precious" URLError)
    as (w' & Hrun & Hfs).
  - reflexivity.
  - reflexivity.
  - reflexivity.
  - intros dict. reflexivity.
  - exists w'. split; [exact Hrun|]. rewrite Hfs. vm_compute. reflexivity.
Defined.

Lemma save_eof_keeps_file_witness :
  fs (@save (Sim.anonymous "todo.md") (Sim.alice "todo.md" false (Some Sim.todo))
        (Sim.start {[ "/home/alice/todo.md" := "old list" ]} [])).2
  = {[ "/home/alice/todo.md" := "old list" ]}.
Proof.
  rewrite (@save_eof_keeps_file (Sim.anonymous "todo.md")
             (Sim.alice "todo.md" false (Some Sim.todo))
             (Sim.start {[ "/home/alice/todo.md" := "old list" ]} []) "old list");
    reflexivity.
Defined.

Lemma backup_missing_file_witness :
  ∃ n,
    (backup (Sim.alice "todo.md" false (Some Sim.todo)) (Sim.start ∅ [])).1
    = Raise FileNotFoundError
    ∧ first_free ∅ "/home/alice" "todo.md" n.
Proof.
  destruct (backup_missing_file (Sim.alice "todo.md" false (Some Sim.todo))
              (Sim.start ∅ [])) as (n & Hfree & Hrun).
  - reflexivity.
  - exists n. split; [by rewrite Hrun|exact Hfree].
Defined.

Lemma MyGist_init_user_witness :
  @MyGist_init (Sim.anonymous "todo.md") "" false (Sim.start ∅ ["alice"])
  = @Gist_init (Sim.anonymous "todo.md") "alice" "" false
      (with_stdin []
         (with_console
            [Print "  No default user set yet. To avoid this prompt set an";
             Print "  environmental variable called `GETGIST_USER`.";
             Prompt "  Please type your GitHub user name: "] (Sim.start ∅ ["alice"]))).
Proof.
  apply (proj2 (@MyGist_init_user (Sim.anonymous "todo.md") "" false
                  (Sim.start ∅ ["alice"]))).
  reflexivity.
Defined.

Lemma run_getgist_downloads_witness :
  ∃ w',
    @run_getgist (Sim.anonymous "todo.md") (Sim.start ∅ []) = (Return tt, w')
    ∧ fs w' = <[ "/home/alice/todo.md" := "buy milk" ]> ∅.
Proof.
  eexists. split; [vm_compute; reflexivity|].
  rewrite (@run_getgist_downloads (Sim.anonymous "todo.md") (Sim.start ∅ [])
           (with_console [Print "  No access token set.";
                          Print "  Looking for public Gists only."] (Sim.start ∅ []))
           (with_console [Print "  No access token set.";
                          Print "  Looking for public Gists only.";
                          Print "  Fetching https://api.github.com/users/alice/gists …"]
              (Sim.start ∅ []))
           _ (Sim.alice "todo.md" false None)
           Sim.alice_gists Sim.todo "buy milk").
  - reflexivity.
  - vm_compute. reflexivity.
  - vm_compute. reflexivity.
  - vm_compute. reflexivity.
  - reflexivity.
  - intros dict. reflexivity.
  - vm_compute. reflexivity.
Defined.

Lemma authenticated_without_token_witness :
  @authenticated (Sim.anonymous "todo.md")
    (MkGist None "alice" "todo.md" false None "" "" None) (Sim.start ∅ [])
  = (Return (MkGist None "alice" "todo.md" false None "" "" None, false),
     with_console [Print "  No access token set.";
                   Print "  Looking for public Gists only."] (Sim.start ∅ [])).
Proof.
  apply (@authenticated_without_token (Sim.anonymous "todo.md")
           (MkGist None "alice" "todo.md" false None "" "" None) (Sim.start ∅ [])).
  reflexivity.
Defined.

(** alice's token, presented for the user bob. *)
Lemma authenticated_login_mismatch_witness :
  (@authenticated (Sim.runtime (Some "s3cret") (CliArgs "bob" "todo.md" false))
     (MkGist None "bob" "todo.md" false None "" "" None) (Sim.start ∅ [])).1
  = Return (MkGist None "bob" "todo.md" false (Some "s3cret") "" "" None, false).
Proof.
  rewrite (@authenticated_login_mismatch
             (Sim.runtime (Some "s3cret") (CliArgs "bob" "todo.md" false))
             (MkGist None "bob" "todo.md" false None "" "" None) (Sim.start ∅ [])
             "s3cret" "alice.json" (IdentityDoc (Some "alice")));
    [reflexivity..|discriminate].
Defined.

Lemma authenticated_valid_witness :
  (@authenticated (Sim.runtime (Some "s3cret") (CliArgs "alice" "todo.md" false))
     (MkGist None "alice" "todo.md" false None "" "" None) (Sim.start ∅ [])).1
  = Return (MkGist None "alice" "todo.md" false (Some "s3cret") "" "" None, true).
Proof.
  rewrite (@authenticated_valid
             (Sim.runtime (Some "s3cret") (CliArgs "alice" "todo.md" false))
             (MkGist None "alice" "todo.md" false None "" "" None) (Sim.start ∅ [])
             "s3cret" "alice.json"); reflexivity.
Defined.
